(** * Sync change pipeline and deferred-startup controller

    A shallow embedding of [sync/glue/generic_change_processor.cc] and
    [sync/startup_controller.cc].

    Conventions of the embedding:
    - every method becomes a function from the state it can touch to its
      result and the state afterwards;
    - [DCHECK], [DCHECK_NE] and [NOTREACHED] are debug-only and compile to
      nothing in release builds, so they leave no trace here; [CHECK] is
      fatal in every build and is modelled by the [Crashed] outcome;
    - the collaborators that live outside these two files (tree store,
      cryptographer, preferences, sign-in, clock) are taken as an interface
      the code is parametric in. *)

From Stdlib Require Import ZArith List String Bool Lia.
From Stdlib Require Import DecimalString.
Import ListNotations.

Local Open Scope Z_scope.
Local Open Scope list_scope.

(** ** Types shared with the sync engine *)

Definition int64 := Z.

(** Modelled from the spec: [syncable::ModelType] is declared outside the
    two files; the spec calls it an opaque enumerator.  It is kept as the
    integer value of the enumerator. *)
Definition ModelType := Z.

(** [syncable::ModelTypeSet] with its [Has] test. *)
Definition ModelTypeSet := list ModelType.

Definition Has (s : ModelTypeSet) (t : ModelType) : bool :=
  existsb (Z.eqb t) s.

(** Modelled from the spec: [sync_pb::EntitySpecifics] is an opaque
    per-datatype payload that may carry an [encrypted] marker; the datatype
    it belongs to can be read off it. *)
Record EntitySpecifics := mkSpecifics {
  specifics_type : ModelType;
  encrypted : option string;
  payload : string
}.

Definition has_encrypted (s : EntitySpecifics) : bool :=
  match encrypted s with Some _ => true | None => false end.

(** The blob handed to [Cryptographer::CanDecrypt]; protobuf accessors give
    the default (empty) value for an absent field. *)
Definition encrypted_blob (s : EntitySpecifics) : string :=
  match encrypted s with Some c => c | None => EmptyString end.

(** Modelled from the spec: [csync::SyncData] has a local variant (client
    tag, title, specifics) and a remote variant (id, specifics). *)
Inductive SyncData :=
| LocalData (tag title : string) (specifics : EntitySpecifics)
| RemoteData (id : int64) (specifics : EntitySpecifics).

Definition IsLocal (d : SyncData) : bool :=
  match d with LocalData _ _ _ => true | RemoteData _ _ => false end.

Definition GetSpecifics (d : SyncData) : EntitySpecifics :=
  match d with LocalData _ _ s => s | RemoteData _ s => s end.

Definition GetDataType (d : SyncData) : ModelType :=
  specifics_type (GetSpecifics d).

Definition GetTag (d : SyncData) : string :=
  match d with LocalData tag _ _ => tag | RemoteData _ _ => EmptyString end.

Definition GetTitle (d : SyncData) : string :=
  match d with LocalData _ title _ => title | RemoteData _ _ => EmptyString end.

Definition CreateRemoteData (id : int64) (specifics : EntitySpecifics) : SyncData :=
  RemoteData id specifics.

(** [csync::SyncChange::SyncChangeType]. *)
Inductive SyncChangeType :=
| ACTION_INVALID
| ACTION_ADD
| ACTION_UPDATE
| ACTION_DELETE.

Record SyncChange := mkSyncChange {
  change_type : SyncChangeType;
  sync_data : SyncData
}.

Definition SyncChangeList := list SyncChange.
Definition SyncDataList := list SyncData.

(** [csync::ChangeRecord] as the inbound side sees it. *)
Inductive ChangeRecordAction :=
| RECORD_ACTION_ADD
| RECORD_ACTION_DELETE
| RECORD_ACTION_UPDATE.

Record ChangeRecord := mkChangeRecord {
  record_id : int64;
  record_action : ChangeRecordAction;
  record_specifics : EntitySpecifics
}.

(** Modelled from the spec: the results of the node constructors,
    [csync::BaseNode::InitByLookupResult] and
    [csync::WriteNode::InitUniqueByCreationResult]. *)
Inductive InitByLookupResult :=
| INIT_OK
| INIT_FAILED_ENTRY_NOT_GOOD
| INIT_FAILED_ENTRY_IS_DEL
| INIT_FAILED_DECRYPT_IF_NECESSARY
| INIT_FAILED_PRECONDITION.

Inductive InitUniqueByCreationResult :=
| INIT_SUCCESS
| INIT_FAILED_EMPTY_TAG
| INIT_FAILED_ENTRY_ALREADY_EXISTS
| INIT_FAILED_COULD_NOT_CREATE_ENTRY
| INIT_FAILED_SET_PREDECESSOR.

Definition lookup_ok (r : InitByLookupResult) : bool :=
  match r with INIT_OK => true | _ => false end.

Definition creation_ok (r : InitUniqueByCreationResult) : bool :=
  match r with INIT_SUCCESS => true | _ => false end.

(** ** Errors

    The source insists that every construction site of a [SyncError] stays
    distinct.  [ErrorKind] names the sites; the message and the datatype are
    what the source puts into the error. *)
Inductive ErrorKind :=
| LookupFailed
| LocalServiceDestroyed
| RootMissing
| FetchChildFailed
| EmptyTag
| EntryAlreadyExists
| CouldNotCreate
| SetPredecessorFailed
| CreateUnknown
| UpdateEmptyTag
| UpdateBadEntry
| UpdateDeletedEntry
| EncrMissingKeyNigoriMismatch
| EncrHaveKeyNigoriMatches
| EncrMissingKeyNigoriMatches
| EncrHaveKeyNigoriMismatch
| DeleteLocalEmptyTag
| DeleteBadEntry
| DeleteAlreadyDeleted
| DeleteUndecryptable
| DeletePrecondition
| DeleteUnknown
| UnsetChange.

Record SyncErrorInfo := mkError {
  error_kind : ErrorKind;
  error_message : string;
  error_type : ModelType
}.

(** A default-constructed [csync::SyncError] is unset: [None]. *)
Definition SyncError := option SyncErrorInfo.

Definition IsSet (e : SyncError) : bool :=
  match e with Some _ => true | None => false end.

(** [base::Int64ToString]. *)
Definition Int64ToString (n : int64) : string :=
  NilZero.string_of_int (Z.to_int n).

(** [UTF8ToWide]: a change of encoding, not of content. *)
Definition UTF8ToWide (s : string) : string := s.

(** ** The tree store the pipeline is written against

    [csync::UserShare], the transactions over it, [ReadNode] / [WriteNode]
    and the cryptographer are declared in the sync engine.  The processor
    only uses the members below.  [UserShare] is the store's content as a
    transaction sees it; [Node] is a node object after one of its [Init]
    calls. *)
Class TreeStore := {
  UserShare : Type;
  Node : Type;
  kInvalidId : int64;
  ModelTypeToString : ModelType -> string;
  ModelTypeToRootTag : ModelType -> string;
  InitByIdLookup : UserShare -> int64 -> InitByLookupResult * Node;
  InitByTagLookup : UserShare -> string -> InitByLookupResult * Node;
  InitByClientTagLookup :
    UserShare -> ModelType -> string -> InitByLookupResult * Node;
  InitUniqueByCreation :
    UserShare -> ModelType -> Node -> string ->
    InitUniqueByCreationResult * Node * UserShare;
  GetId : UserShare -> Node -> int64;
  GetEntitySpecifics : UserShare -> Node -> EntitySpecifics;
  GetEntrySpecifics : UserShare -> Node -> EntitySpecifics;
  GetFirstChildId : UserShare -> Node -> int64;
  GetSuccessorId : UserShare -> Node -> int64;
  HasChildren : UserShare -> Node -> bool;
  SetTitle : UserShare -> Node -> string -> UserShare;
  SetEntitySpecifics : UserShare -> Node -> EntitySpecifics -> UserShare;
  Remove : UserShare -> Node -> UserShare;
  GetEncryptedTypes : UserShare -> ModelTypeSet;
  CanDecrypt : UserShare -> string -> bool;
  is_ready : UserShare -> bool
}.

(** [csync::SyncableService], reduced to the member the processor calls. *)
Definition SyncableService := SyncChangeList -> SyncError.

Module GenericChangeProcessor.

Section Processor.

Context {TS : TreeStore}.

Local Open Scope string_scope.

(** Mutator calls issued on nodes of the write transaction, in call order. *)
Inductive Mutation :=
| CallInitUniqueByCreation (type : ModelType) (tag : string)
| CallSetTitle (n : Node) (title : string)
| CallSetEntitySpecifics (n : Node) (s : EntitySpecifics)
| CallRemove (n : Node).

(** The processor together with what it reaches through its pointers:
    - [running], [syncer_changes_], [local_service_] (a weak pointer, [None]
      once the service is gone), [share_handle_]: the members;
    - [error_log]: the messages passed to
      [error_handler()->OnSingleDatatypeUnrecoverableError], oldest first;
    - [delivered]: the lists passed to [local_service_->ProcessSyncChanges];
    - [journal]: the mutator calls made on the store. *)
Record State := mkState {
  running : bool;
  syncer_changes_ : SyncChangeList;
  local_service_ : option SyncableService;
  share_handle_ : UserShare;
  error_log : list string;
  delivered : list SyncChangeList;
  journal : list Mutation
}.

Definition set_syncer_changes (l : SyncChangeList) (st : State) : State :=
  mkState (running st) l (local_service_ st) (share_handle_ st)
          (error_log st) (delivered st) (journal st).

Definition OnSingleDatatypeUnrecoverableError (message : string) (st : State)
  : State :=
  mkState (running st) (syncer_changes_ st) (local_service_ st)
          (share_handle_ st) (error_log st ++ [message])%list
          (delivered st) (journal st).

Definition record_delivery (l : SyncChangeList) (st : State) : State :=
  mkState (running st) (syncer_changes_ st) (local_service_ st)
          (share_handle_ st) (error_log st)
          (delivered st ++ [l])%list (journal st).

Definition mutate (share : UserShare) (m : Mutation) (st : State) : State :=
  mkState (running st) (syncer_changes_ st) (local_service_ st)
          share (error_log st) (delivered st) (journal st ++ [m])%list.

Definition push_back (c : SyncChange) (st : State) : State :=
  set_syncer_changes (syncer_changes_ st ++ [c])%list st.

(** *** Inbound: remote records to staged changes *)

(** The [for] loop of [ApplyChangesFromSyncModel]; the [return] in its body
    ends the recursion. *)
Fixpoint ApplyChangesFromSyncModel_loop
  (trans : UserShare) (changes : list ChangeRecord) (st : State) : State :=
  match changes with
  | [] => st
  | it :: rest =>
      match record_action it with
      | RECORD_ACTION_DELETE =>
          ApplyChangesFromSyncModel_loop trans rest
            (push_back
               (mkSyncChange ACTION_DELETE
                  (CreateRemoteData (record_id it) (record_specifics it)))
               st)
      | other =>
          let action :=
            match other with
            | RECORD_ACTION_ADD => ACTION_ADD
            | _ => ACTION_UPDATE
            end in
          let '(result, read_node) := InitByIdLookup trans (record_id it) in
          if negb (lookup_ok result) then
            OnSingleDatatypeUnrecoverableError
              ("Failed to look up data for received change with id " ++
               Int64ToString (record_id it))
              st
          else
            ApplyChangesFromSyncModel_loop trans rest
              (push_back
                 (mkSyncChange action
                    (CreateRemoteData (record_id it)
                       (GetEntitySpecifics trans read_node)))
                 st)
      end
  end.

Definition ApplyChangesFromSyncModel
  (trans : UserShare) (changes : list ChangeRecord) (st : State) : State :=
  ApplyChangesFromSyncModel_loop trans changes st.

Definition CommitChangesFromSyncModel (st : State) : State :=
  if negb (running st) then st
  else
    match syncer_changes_ st with
    | [] => st
    | first :: _ =>
        match local_service_ st with
        | None =>
            let type := GetDataType (sync_data first) in
            let error :=
              mkError LocalServiceDestroyed "Local service destroyed." type in
            OnSingleDatatypeUnrecoverableError (error_message error) st
        | Some service =>
            let error := service (syncer_changes_ st) in
            let st1 := record_delivery (syncer_changes_ st) st in
            let st2 := set_syncer_changes [] st1 in
            match error with
            | Some e => OnSingleDatatypeUnrecoverableError (error_message e) st2
            | None => st2
            end
        end
    end.

(** *** Reading all data of a type *)

(** The [while] loop of [GetSyncDataForType].  A sibling chain need not end,
    so the loop carries fuel; [None] means the fuel ran out. *)
Fixpoint GetSyncDataForType_loop
  (fuel : nat) (trans : UserShare) (type : ModelType) (type_name : string)
  (sync_child_id : int64) (current_sync_data : SyncDataList)
  : option (SyncError * SyncDataList) :=
  if Z.eqb sync_child_id kInvalidId then Some (None, current_sync_data)
  else
    match fuel with
    | O => None
    | S fuel' =>
        let '(result, sync_child_node) := InitByIdLookup trans sync_child_id in
        if negb (lookup_ok result) then
          Some (Some (mkError FetchChildFailed
                        ("Failed to fetch child node for type " ++
                         type_name ++ ".")
                        type),
                current_sync_data)
        else
          GetSyncDataForType_loop fuel' trans type type_name
            (GetSuccessorId trans sync_child_node)
            (current_sync_data ++
             [CreateRemoteData (GetId trans sync_child_node)
                (GetEntitySpecifics trans sync_child_node)])%list
    end.

Definition GetSyncDataForType
  (fuel : nat) (type : ModelType) (current_sync_data : SyncDataList)
  (st : State) : option (SyncError * SyncDataList) :=
  let type_name := ModelTypeToString type in
  let trans := share_handle_ st in
  let '(result, root) := InitByTagLookup trans (ModelTypeToRootTag type) in
  if negb (lookup_ok result) then
    Some (Some (mkError RootMissing
                  ("Server did not create the top-level " ++ type_name ++
                   " node. We might be running against an out-of-date server.")
                  type),
          current_sync_data)
  else
    GetSyncDataForType_loop fuel trans type type_name
      (GetFirstChildId trans root) current_sync_data.

(** *** Outbound: local changes to node mutations *)

(** [SyncData::GetRemoteId]; local data carries the invalid id. *)
Definition GetRemoteId (d : SyncData) : int64 :=
  match d with RemoteData id _ => id | LocalData _ _ _ => kInvalidId end.

(** Every branch builds its error and reports its message. *)
Definition fail_with
  (kind : ErrorKind) (message : string) (type : ModelType) (st : State)
  : SyncErrorInfo * State :=
  let error := mkError kind message type in
  (error, OnSingleDatatypeUnrecoverableError (error_message error) st).

Definition LogLookupFailure
  (lookup_result : InitByLookupResult) (error_prefix : string)
  (type : ModelType) (st : State) : SyncErrorInfo * State :=
  match lookup_result with
  | INIT_FAILED_ENTRY_NOT_GOOD =>
      fail_with DeleteBadEntry
        (error_prefix ++ "could not find entry matching the lookup criteria.")
        type st
  | INIT_FAILED_ENTRY_IS_DEL =>
      fail_with DeleteAlreadyDeleted
        (error_prefix ++ "entry is already deleted.") type st
  | INIT_FAILED_DECRYPT_IF_NECESSARY =>
      fail_with DeleteUndecryptable (error_prefix ++ "unable to decrypt")
        type st
  | INIT_FAILED_PRECONDITION =>
      fail_with DeletePrecondition
        (error_prefix ++ "a precondition was not met for calling init.")
        type st
  | _ =>
      fail_with DeleteUnknown (error_prefix ++ "unknown error") type st
  end.

Definition AttemptDelete
  (change : SyncChange) (type : ModelType) (type_str : string) (st : State)
  : SyncError * State :=
  if IsLocal (sync_data change) then
    let tag := GetTag (sync_data change) in
    if String.eqb tag "" then
      let '(error, st1) :=
        fail_with DeleteLocalEmptyTag
          ("Failed to delete " ++ type_str ++ " node. Local data, empty tag.")
          type st in
      (Some error, st1)
    else
      let '(result, node) :=
        InitByClientTagLookup (share_handle_ st)
          (GetDataType (sync_data change)) tag in
      if negb (lookup_ok result) then
        let '(error, st1) :=
          LogLookupFailure result
            ("Failed to delete " ++ type_str ++ " node. Local data, ")
            type st in
        (Some error, st1)
      else
        (None, mutate (Remove (share_handle_ st) node) (CallRemove node) st)
  else
    let '(result, node) :=
      InitByIdLookup (share_handle_ st) (GetRemoteId (sync_data change)) in
    if negb (lookup_ok result) then
      let '(error, st1) :=
        LogLookupFailure result
          ("Failed to delete " ++ type_str ++ " node. Non-local data, ")
          type st in
      (Some error, st1)
    else
      (None, mutate (Remove (share_handle_ st) node) (CallRemove node) st).

(** [sync_node.SetTitle(...); sync_node.SetEntitySpecifics(...)]. *)
Definition write_title_and_specifics
  (node : Node) (data : SyncData) (st : State) : State :=
  let title := UTF8ToWide (GetTitle data) in
  let st1 :=
    mutate (SetTitle (share_handle_ st) node title)
           (CallSetTitle node title) st in
  mutate (SetEntitySpecifics (share_handle_ st1) node (GetSpecifics data))
         (CallSetEntitySpecifics node (GetSpecifics data)) st1.

(** What one turn of the loop of [ProcessSyncChanges] does. *)
Inductive Step :=
| Continue
| Return (error : SyncErrorInfo)
| CheckFailed.

Definition returning (r : SyncErrorInfo * State) : Step * State :=
  (Return (fst r), snd r).

Definition process_add
  (change : SyncChange) (type : ModelType) (type_str : string) (st : State)
  : Step * State :=
  let '(root_result, root_node) :=
    InitByTagLookup (share_handle_ st)
      (ModelTypeToRootTag (GetDataType (sync_data change))) in
  if negb (lookup_ok root_result) then
    returning
      (fail_with RootMissing
         ("Failed to look up root node for type " ++ type_str) type st)
  else
    let '(result, sync_node, share) :=
      InitUniqueByCreation (share_handle_ st)
        (GetDataType (sync_data change)) root_node
        (GetTag (sync_data change)) in
    let st1 :=
      mutate share
        (CallInitUniqueByCreation (GetDataType (sync_data change))
           (GetTag (sync_data change))) st in
    if negb (creation_ok result) then
      let error_prefix := "Failed to create " ++ type_str ++ " node: " in
      match result with
      | INIT_FAILED_EMPTY_TAG =>
          returning (fail_with EmptyTag (error_prefix ++ "empty tag") type st1)
      | INIT_FAILED_ENTRY_ALREADY_EXISTS =>
          returning
            (fail_with EntryAlreadyExists
               (error_prefix ++ "entry already exists") type st1)
      | INIT_FAILED_COULD_NOT_CREATE_ENTRY =>
          returning
            (fail_with CouldNotCreate
               (error_prefix ++ "failed to create entry") type st1)
      | INIT_FAILED_SET_PREDECESSOR =>
          returning
            (fail_with SetPredecessorFailed
               (error_prefix ++ "failed to set predecessor") type st1)
      | _ =>
          returning
            (fail_with CreateUnknown (error_prefix ++ "unknown error")
               type st1)
      end
    else
      (Continue, write_title_and_specifics sync_node (sync_data change) st1).

(** The last [else] of the update branch: the lookup failed for a reason
    other than the three handled before it. *)
Definition diagnose_encryption
  (sync_node : Node) (type : ModelType) (type_str : string) (st : State)
  : Step * State :=
  let trans := share_handle_ st in
  let encrypted_types := GetEncryptedTypes trans in
  let specifics := GetEntrySpecifics trans sync_node in
  if negb (has_encrypted specifics) then (CheckFailed, st)
  else
    let can_decrypt := CanDecrypt trans (encrypted_blob specifics) in
    let agreement := Has encrypted_types type in
    if negb agreement && negb can_decrypt then
      returning
        (fail_with EncrMissingKeyNigoriMismatch
           ("Failed to load encrypted entry, missing key and " ++
            "nigori mismatch for " ++ type_str ++ ".") type st)
    else if agreement && can_decrypt then
      returning
        (fail_with EncrHaveKeyNigoriMatches
           ("Failed to load encrypted entry, we have the key " ++
            "and the nigori matches (?!) for " ++ type_str ++ ".") type st)
    else if agreement then
      returning
        (fail_with EncrMissingKeyNigoriMatches
           ("Failed to load encrypted entry, missing key and " ++
            "the nigori matches for " ++ type_str ++ ".") type st)
    else
      returning
        (fail_with EncrHaveKeyNigoriMismatch
           ("Failed to load encrypted entry, we have the key" ++
            "(?!) and nigori mismatch for " ++ type_str ++ ".") type st).

Definition process_update
  (change : SyncChange) (type : ModelType) (type_str : string) (st : State)
  : Step * State :=
  let '(result, sync_node) :=
    InitByClientTagLookup (share_handle_ st)
      (GetDataType (sync_data change)) (GetTag (sync_data change)) in
  if negb (lookup_ok result) then
    match result with
    | INIT_FAILED_PRECONDITION =>
        returning
          (fail_with UpdateEmptyTag
             ("Failed to load entry w/empty tag for " ++ type_str ++ ".")
             type st)
    | INIT_FAILED_ENTRY_NOT_GOOD =>
        returning
          (fail_with UpdateBadEntry
             ("Failed to load bad entry for " ++ type_str ++ ".") type st)
    | INIT_FAILED_ENTRY_IS_DEL =>
        returning
          (fail_with UpdateDeletedEntry
             ("Failed to load deleted entry for " ++ type_str ++ ".") type st)
    | _ => diagnose_encryption sync_node type type_str st
    end
  else
    (Continue, write_title_and_specifics sync_node (sync_data change) st).

(** The body of the [for] loop of [ProcessSyncChanges]. *)
Definition process_change (change : SyncChange) (st : State) : Step * State :=
  let type := GetDataType (sync_data change) in
  let type_str := ModelTypeToString type in
  match change_type change with
  | ACTION_DELETE =>
      match AttemptDelete change type type_str st with
      | (Some error, st1) => (Return error, st1)
      | (None, st1) => (Continue, st1)
      end
  | ACTION_ADD => process_add change type type_str st
  | ACTION_UPDATE => process_update change type type_str st
  | ACTION_INVALID =>
      returning
        (fail_with UnsetChange
           "Received unset csync::SyncChange in the change processor."
           type st)
  end.

(** How a call of [ProcessSyncChanges] ends: it returns a [SyncError]
    (unset when every change went through) or the process dies in [CHECK]. *)
Inductive Outcome :=
| Returned (error : SyncError)
| Crashed.

Fixpoint ProcessSyncChanges (list_of_changes : SyncChangeList) (st : State)
  : Outcome * State :=
  match list_of_changes with
  | [] => (Returned None, st)
  | change :: rest =>
      match process_change change st with
      | (Continue, st1) => ProcessSyncChanges rest st1
      | (Return error, st1) => (Returned (Some error), st1)
      | (CheckFailed, st1) => (Crashed, st1)
      end
  end.

Definition SyncModelHasUserCreatedNodes (type : ModelType) (st : State)
  : bool * bool :=
  let trans := share_handle_ st in
  let '(result, type_root_node) :=
    InitByTagLookup trans (ModelTypeToRootTag type) in
  if negb (lookup_ok result) then (false, false)
  else (true, HasChildren trans type_root_node).

Definition CryptoReadyIfNecessary (type : ModelType) (st : State) : bool :=
  let trans := share_handle_ st in
  let encrypted_types := GetEncryptedTypes trans in
  negb (Has encrypted_types type) || is_ready trans.

End Processor.

End GenericChangeProcessor.

(** ** Vocabulary of the properties *)
Module Pipeline.

Import GenericChangeProcessor.

Section Tables.

Context {TS : TreeStore}.

(** The lookup [AttemptDelete] performs for a change: by client tag for
    local data, by remote id otherwise. *)
Definition delete_lookup (change : SyncChange) (st : State)
  : InitByLookupResult * Node :=
  if IsLocal (sync_data change) then
    InitByClientTagLookup (share_handle_ st)
      (GetDataType (sync_data change)) (GetTag (sync_data change))
  else
    InitByIdLookup (share_handle_ st) (GetRemoteId (sync_data change)).

(** The failure mapping of a delete, in the words of the specification. *)
Definition delete_failure_kind (r : InitByLookupResult) : ErrorKind :=
  match r with
  | INIT_FAILED_ENTRY_NOT_GOOD => DeleteBadEntry
  | INIT_FAILED_ENTRY_IS_DEL => DeleteAlreadyDeleted
  | INIT_FAILED_DECRYPT_IF_NECESSARY => DeleteUndecryptable
  | INIT_FAILED_PRECONDITION => DeletePrecondition
  | INIT_OK => DeleteUnknown
  end.

(** The truth table of the encryption diagnostic, in the words of the
    specification: [A] is membership of the type in the encrypted types,
    [C] is whether the cryptographer can decrypt the entry. *)
Definition encryption_diagnostic_kind (A C : bool) : ErrorKind :=
  match A, C with
  | false, false => EncrMissingKeyNigoriMismatch
  | true, true => EncrHaveKeyNigoriMatches
  | true, false => EncrMissingKeyNigoriMatches
  | false, true => EncrHaveKeyNigoriMismatch
  end.

(** What a record stages when its node can be read. *)
Definition staged (trans : UserShare) (it : ChangeRecord) : SyncChange :=
  match record_action it with
  | RECORD_ACTION_DELETE =>
      mkSyncChange ACTION_DELETE
        (CreateRemoteData (record_id it) (record_specifics it))
  | RECORD_ACTION_ADD =>
      mkSyncChange ACTION_ADD
        (CreateRemoteData (record_id it)
           (GetEntitySpecifics trans (snd (InitByIdLookup trans (record_id it)))))
  | RECORD_ACTION_UPDATE =>
      mkSyncChange ACTION_UPDATE
        (CreateRemoteData (record_id it)
           (GetEntitySpecifics trans (snd (InitByIdLookup trans (record_id it)))))
  end.

(** A record that needs no node, or whose node is found. *)
Definition readable (trans : UserShare) (it : ChangeRecord) : bool :=
  match record_action it with
  | RECORD_ACTION_DELETE => true
  | _ => lookup_ok (fst (InitByIdLookup trans (record_id it)))
  end.

(** [nodes] are the nodes met when following successors from [start],
    every one found by its id, and [stop] is the id reached after them. *)
Fixpoint sibling_chain
  (trans : UserShare) (start : int64) (nodes : list Node) (stop : int64)
  : Prop :=
  match nodes with
  | [] => start = stop
  | n :: rest =>
      Z.eqb start kInvalidId = false /\
      InitByIdLookup trans start = (INIT_OK, n) /\
      sibling_chain trans (GetSuccessorId trans n) rest stop
  end.

Definition remote_data_of (trans : UserShare) (n : Node) : SyncData :=
  CreateRemoteData (GetId trans n) (GetEntitySpecifics trans n).

End Tables.

End Pipeline.

(** ** An in-memory tree store

    A small implementation of [TreeStore], in the manner of the fakes used
    by the unit tests, on which the processor can be run. *)
Module FakeStore.

Record Entry := mkEntry {
  id : int64;
  type : ModelType;
  client_tag : string;
  server_tag : string;
  title : string;
  specifics : EntitySpecifics;
  is_del : bool;
  first_child : int64;
  successor : int64
}.

Record Share := mkShare {
  entries : list Entry;
  encrypted_types : ModelTypeSet;
  keys : list string;
  cryptographer_ready : bool
}.

Definition can_decrypt (s : Share) (blob : string) : bool :=
  existsb (String.eqb blob) (keys s).

Definition by_id (s : Share) (n : int64) : option Entry :=
  find (fun e => id e =? n) (entries s).

(** A node object holds the id of the entry it was initialised with. *)
Definition load (s : Share) (found : option Entry) : InitByLookupResult * int64 :=
  match found with
  | None => (INIT_FAILED_ENTRY_NOT_GOOD, 0)
  | Some e =>
      if is_del e then (INIT_FAILED_ENTRY_IS_DEL, id e)
      else if has_encrypted (specifics e) &&
              negb (can_decrypt s (encrypted_blob (specifics e)))
      then (INIT_FAILED_DECRYPT_IF_NECESSARY, id e)
      else (INIT_OK, id e)
  end.

Definition init_by_id (s : Share) (n : int64) := load s (by_id s n).

Definition init_by_tag (s : Share) (tag : string) :=
  load s (find (fun e => String.eqb (server_tag e) tag) (entries s)).

Definition init_by_client_tag (s : Share) (t : ModelType) (tag : string) :=
  if String.eqb tag EmptyString then (INIT_FAILED_PRECONDITION, 0)
  else
    load s (find (fun e => (type e =? t) && String.eqb (client_tag e) tag)
              (entries s)).

Definition fresh_id (s : Share) : int64 :=
  1 + fold_right Z.max 0 (map id (entries s)).

Definition init_unique_by_creation
  (s : Share) (t : ModelType) (root : int64) (tag : string)
  : InitUniqueByCreationResult * int64 * Share :=
  if String.eqb tag EmptyString then (INIT_FAILED_EMPTY_TAG, 0, s)
  else if existsb (fun e => (type e =? t) && String.eqb (client_tag e) tag)
            (entries s)
  then (INIT_FAILED_ENTRY_ALREADY_EXISTS, 0, s)
  else
    let n := fresh_id s in
    (INIT_SUCCESS, n,
     mkShare
       (entries s ++
        [mkEntry n t tag EmptyString EmptyString
           (mkSpecifics t None EmptyString) false 0 0])
       (encrypted_types s) (keys s) (cryptographer_ready s)).

Definition update (s : Share) (n : int64) (f : Entry -> Entry) : Share :=
  mkShare (map (fun e => if id e =? n then f e else e) (entries s))
          (encrypted_types s) (keys s) (cryptographer_ready s).

Definition field {A} (s : Share) (n : int64) (f : Entry -> A) (d : A) : A :=
  match by_id s n with Some e => f e | None => d end.

Definition type_name (t : ModelType) : string :=
  String.append "Type" (Int64ToString t).

Definition root_tag (t : ModelType) : string :=
  String.append "root_" (Int64ToString t).

#[global] Instance store : TreeStore := {|
  UserShare := Share;
  Node := int64;
  kInvalidId := 0;
  ModelTypeToString := type_name;
  ModelTypeToRootTag := root_tag;
  InitByIdLookup := init_by_id;
  InitByTagLookup := init_by_tag;
  InitByClientTagLookup := init_by_client_tag;
  InitUniqueByCreation := init_unique_by_creation;
  GetId := fun _ n => n;
  GetEntitySpecifics :=
    fun s n => field s n specifics (mkSpecifics 0 None EmptyString);
  GetEntrySpecifics :=
    fun s n => field s n specifics (mkSpecifics 0 None EmptyString);
  GetFirstChildId := fun s n => field s n first_child 0;
  GetSuccessorId := fun s n => field s n successor 0;
  HasChildren := fun s n => negb (field s n first_child 0 =? 0);
  SetTitle :=
    fun s n t =>
      update s n (fun e =>
        mkEntry (id e) (type e) (client_tag e) (server_tag e) t
                (specifics e) (is_del e) (first_child e) (successor e));
  SetEntitySpecifics :=
    fun s n sp =>
      update s n (fun e =>
        mkEntry (id e) (type e) (client_tag e) (server_tag e) (title e)
                sp (is_del e) (first_child e) (successor e));
  Remove :=
    fun s n =>
      update s n (fun e =>
        mkEntry (id e) (type e) (client_tag e) (server_tag e) (title e)
                (specifics e) true (first_child e) (successor e));
  GetEncryptedTypes := encrypted_types;
  CanDecrypt := can_decrypt;
  is_ready := cryptographer_ready
|}.

End FakeStore.

(** ** A small store to run the processor on

    One datatype with its root, a readable entry [k] and an entry [locked]
    whose specifics are encrypted under a key the cryptographer lacks; the
    sibling chain under the root is 7, 8 and then the dangling id 99. *)
Module Scenario.

Import GenericChangeProcessor FakeStore.

Definition prefs : ModelType := 3.

Definition plain (p : string) : EntitySpecifics := mkSpecifics prefs None p.

Definition sealed (blob : string) : EntitySpecifics :=
  mkSpecifics prefs (Some blob) EmptyString.

Definition share0 : Share :=
  mkShare
    [ mkEntry 1 prefs EmptyString (root_tag prefs) EmptyString
        (plain EmptyString) false 7 0;
      mkEntry 7 prefs "k" EmptyString "seven" (plain "s7_now") false 0 8;
      mkEntry 8 prefs "locked" EmptyString "eight" (sealed "blob") false 0 99 ]
    [prefs] [] true.

Definition processor (service : option SyncableService) : State :=
  mkState true [] service share0 [] [] [].

Definition accepting : SyncableService := fun _ => None.

Definition delete9 : ChangeRecord :=
  mkChangeRecord 9 RECORD_ACTION_DELETE (plain "sdel").

Definition add7 : ChangeRecord :=
  mkChangeRecord 7 RECORD_ACTION_ADD (plain "s7").

Definition add99 : ChangeRecord :=
  mkChangeRecord 99 RECORD_ACTION_ADD (plain "s99").

Definition update_k : SyncChange :=
  mkSyncChange ACTION_UPDATE (LocalData "k" "hello" (plain "x")).

Definition update_locked : SyncChange :=
  mkSyncChange ACTION_UPDATE (LocalData "locked" "hello" (plain "x")).

Definition delete_untagged : SyncChange :=
  mkSyncChange ACTION_DELETE (LocalData EmptyString "gone" (plain "x")).

Definition delete_k : SyncChange :=
  mkSyncChange ACTION_DELETE (LocalData "k" "gone" (plain "x")).

End Scenario.

(** ** The startup controller *)
Module StartupController.

Local Open Scope string_scope.

(** [base::Time] holds a count of microseconds; the default-constructed
    value, the one [is_null] recognises, is zero. *)
Definition Time := Z.
Definition TimeDelta := Z.

Definition null_time : Time := 0.

Definition is_null (t : Time) : bool := Z.eqb t 0.

Definition FromSeconds (secs : Z) : TimeDelta := secs * 1000000.

(** Both [base::Time] and [base::TimeDelta] keep their count in an
    [int64]; arithmetic on them wraps around. *)
Definition wrap_int64 (z : Z) : Z := (z + 2 ^ 63) mod 2 ^ 64 - 2 ^ 63.

(** [Time::operator-(Time)]: the difference of the two counts, in
    [int64]. *)
Definition time_sub (a b : Time) : TimeDelta := wrap_int64 (a - b).

Definition kDeferredInitFallbackSeconds : Z := 10.

Inductive DeferredInitTrigger :=
| TRIGGER_DATA_TYPE_REQUEST
| TRIGGER_FALLBACK_TIMER
| MAX_TRIGGER_VALUE.

Definition trigger_value (t : DeferredInitTrigger) : Z :=
  match t with
  | TRIGGER_DATA_TYPE_REQUEST => 0
  | TRIGGER_FALLBACK_TIMER => 1
  | MAX_TRIGGER_VALUE => 2
  end.

Inductive StartUpDeferredOption :=
| STARTUP_BACKEND_DEFERRED
| STARTUP_IMMEDIATE.

Inductive ProfileSyncServiceStartBehavior :=
| AUTO_START
| MANUAL_START.

(** What the controller does to the world around it, in order: histogram
    samples, a task posted to the message loop (with the generation of the
    weak pointer bound into it) and runs of the [start_backend_] closure. *)
Inductive Effect :=
| UMA_HISTOGRAM_BOOLEAN (name : string) (sample : bool)
| UMA_HISTOGRAM_TIMES (name : string) (sample : TimeDelta)
| UMA_HISTOGRAM_ENUMERATION (name : string) (sample boundary : Z)
| PostDelayedTask (weak_ptr : nat) (delay : TimeDelta)
| RunStartBackend.

(** What the controller reads from its collaborators during one call:
    preferences, sign-in, token service answers, the command line, the
    clock, and the syncer's histogram table. *)
Record Env := mkEnv {
  IsManaged : bool;
  IsStartSuppressed : bool;
  HasSyncSetupCompleted : bool;
  GetEffectiveUsername : string;
  GetAccountIdToUse : string;
  RefreshTokenIsAvailable : string -> bool;
  kSyncEnableDeferredStartup : bool;
  Now : Time;
  ModelTypeToHistogramInt : ModelType -> Z;
  MODEL_TYPE_COUNT : Z
}.

(** The members of the controller.  [token_service_] tells whether the
    pointer is non-null; [weak_generation] counts the calls of
    [weak_factory_.InvalidateWeakPtrs]: a weak pointer is alive while the
    generation it was taken in is the current one. *)
Record State := mkState {
  received_start_request_ : bool;
  setup_in_progress_ : bool;
  auto_start_enabled_ : bool;
  token_service_ : bool;
  start_up_time_ : Time;
  start_backend_time_ : Time;
  fallback_timeout_ : TimeDelta;
  weak_generation : nat;
  effects : list Effect
}.

Definition construct
  (start_behavior : ProfileSyncServiceStartBehavior) (token_service : bool)
  : State :=
  mkState false false
    (match start_behavior with AUTO_START => true | MANUAL_START => false end)
    token_service null_time null_time
    (FromSeconds kDeferredInitFallbackSeconds) 0 [].

Definition emit (e : Effect) (s : State) : State :=
  mkState (received_start_request_ s) (setup_in_progress_ s)
    (auto_start_enabled_ s) (token_service_ s) (start_up_time_ s)
    (start_backend_time_ s) (fallback_timeout_ s) (weak_generation s)
    (effects s ++ [e])%list.

Definition set_received_start_request (b : bool) (s : State) : State :=
  mkState b (setup_in_progress_ s) (auto_start_enabled_ s) (token_service_ s)
    (start_up_time_ s) (start_backend_time_ s) (fallback_timeout_ s)
    (weak_generation s) (effects s).

Definition set_start_up_time (t : Time) (s : State) : State :=
  mkState (received_start_request_ s) (setup_in_progress_ s)
    (auto_start_enabled_ s) (token_service_ s) t (start_backend_time_ s)
    (fallback_timeout_ s) (weak_generation s) (effects s).

Definition set_start_backend_time (t : Time) (s : State) : State :=
  mkState (received_start_request_ s) (setup_in_progress_ s)
    (auto_start_enabled_ s) (token_service_ s) (start_up_time_ s) t
    (fallback_timeout_ s) (weak_generation s) (effects s).

Definition Reset (s : State) : State :=
  mkState false false (auto_start_enabled_ s) (token_service_ s)
    null_time null_time (fallback_timeout_ s) (S (weak_generation s))
    (effects s).

Definition set_setup_in_progress (in_progress : bool) (s : State) : State :=
  mkState (received_start_request_ s) in_progress (auto_start_enabled_ s)
    (token_service_ s) (start_up_time_ s) (start_backend_time_ s)
    (fallback_timeout_ s) (weak_generation s) (effects s).

Definition OverrideFallbackTimeoutForTest (timeout : TimeDelta) (s : State)
  : State :=
  mkState (received_start_request_ s) (setup_in_progress_ s)
    (auto_start_enabled_ s) (token_service_ s) (start_up_time_ s)
    (start_backend_time_ s) timeout (weak_generation s) (effects s).

Definition StartUp
  (deferred_option : StartUpDeferredOption) (env : Env) (s : State)
  : bool * State :=
  let first_start := is_null (start_up_time_ s) in
  let s1 := if first_start then set_start_up_time (Now env) s else s in
  if match deferred_option with
     | STARTUP_BACKEND_DEFERRED => kSyncEnableDeferredStartup env
     | STARTUP_IMMEDIATE => false
     end
  then
    (false,
     if first_start
     then emit (PostDelayedTask (weak_generation s1) (fallback_timeout_ s1)) s1
     else s1)
  else
    (true,
     if is_null (start_backend_time_ s1)
     then emit RunStartBackend (set_start_backend_time (Now env) s1)
     else s1).

Definition TryStart (env : Env) (s : State) : bool * State :=
  if IsManaged env then (false, s)
  else if IsStartSuppressed env then (false, s)
  else if String.eqb (GetEffectiveUsername env) "" then (false, s)
  else if negb (token_service_ s) then (false, s)
  else if negb (RefreshTokenIsAvailable env (GetAccountIdToUse env))
  then (false, s)
  else
    let s1 := emit (UMA_HISTOGRAM_BOOLEAN "Sync.RefreshTokenAvailable" true) s in
    if HasSyncSetupCompleted env then
      if negb (received_start_request_ s1)
      then StartUp STARTUP_BACKEND_DEFERRED env s1
      else StartUp STARTUP_IMMEDIATE env s1
    else if setup_in_progress_ s1 || auto_start_enabled_ s1 then
      StartUp STARTUP_IMMEDIATE env s1
    else (false, s1).

Definition OnFallbackStartupTimerExpired (env : Env) (s : State) : State :=
  if negb (is_null (start_backend_time_ s)) then s
  else
    let time_deferred := time_sub (Now env) (start_up_time_ s) in
    let s1 := emit (UMA_HISTOGRAM_TIMES "Sync.Startup.TimeDeferred" time_deferred) s in
    let s2 :=
      emit (UMA_HISTOGRAM_ENUMERATION "Sync.Startup.DeferredInitTrigger"
              (trigger_value TRIGGER_FALLBACK_TIMER)
              (trigger_value MAX_TRIGGER_VALUE)) s1 in
    snd (TryStart env (set_received_start_request true s2)).

Definition GetBackendInitializationStateString (s : State) : string :=
  if negb (is_null (start_backend_time_ s)) then "Started"
  else if negb (is_null (start_up_time_ s)) then "Deferred"
  else "Not started".

Definition OnDataTypeRequestsSyncStartup
  (type : ModelType) (env : Env) (s : State) : State :=
  if negb (kSyncEnableDeferredStartup env) then s
  else if negb (is_null (start_backend_time_ s)) then s
  else
    let s1 :=
      if negb (is_null (start_up_time_ s)) then
        let time_deferred := time_sub (Now env) (start_up_time_ s) in
        emit (UMA_HISTOGRAM_ENUMERATION "Sync.Startup.DeferredInitTrigger"
                (trigger_value TRIGGER_DATA_TYPE_REQUEST)
                (trigger_value MAX_TRIGGER_VALUE))
          (emit (UMA_HISTOGRAM_ENUMERATION "Sync.Startup.TypeTriggeringInit"
                   (ModelTypeToHistogramInt env type) (MODEL_TYPE_COUNT env))
             (emit (UMA_HISTOGRAM_TIMES "Sync.Startup.TimeDeferred"
                      time_deferred) s))
      else s in
    snd (TryStart env (set_received_start_request true s1)).

(** The entry points a client, or the message loop, can drive.  A posted
    task runs [OnFallbackStartupTimerExpired] only while the weak pointer
    bound into it is alive. *)
Inductive Call :=
| CallReset
| CallSetSetupInProgress (in_progress : bool)
| CallOverrideFallbackTimeoutForTest (timeout : TimeDelta)
| CallTryStart
| CallOnDataTypeRequestsSyncStartup (type : ModelType)
| RunPostedTask (weak_ptr : nat).

Definition is_reset (c : Call) : bool :=
  match c with CallReset => true | _ => false end.

Definition step (env : Env) (c : Call) (s : State) : State :=
  match c with
  | CallReset => Reset s
  | CallSetSetupInProgress b => set_setup_in_progress b s
  | CallOverrideFallbackTimeoutForTest t => OverrideFallbackTimeoutForTest t s
  | CallTryStart => snd (TryStart env s)
  | CallOnDataTypeRequestsSyncStartup t => OnDataTypeRequestsSyncStartup t env s
  | RunPostedTask w =>
      if Nat.eqb w (weak_generation s)
      then OnFallbackStartupTimerExpired env s
      else s
  end.

Fixpoint run (calls : list (Env * Call)) (s : State) : State :=
  match calls with
  | [] => s
  | (env, c) :: rest => run rest (step env c s)
  end.

Definition is_backend_run (e : Effect) : bool :=
  match e with RunStartBackend => true | _ => false end.

(** How often the [start_backend_] closure has run. *)
Definition backend_runs (s : State) : nat :=
  List.length (filter is_backend_run (effects s)).

(** The samples that measure a deferral: [Sync.Startup.TimeDeferred],
    [Sync.Startup.TypeTriggeringInit], [Sync.Startup.DeferredInitTrigger]. *)
Definition is_deferral_telemetry (e : Effect) : bool :=
  match e with
  | UMA_HISTOGRAM_TIMES name _ => String.eqb name "Sync.Startup.TimeDeferred"
  | UMA_HISTOGRAM_ENUMERATION name _ _ =>
      String.eqb name "Sync.Startup.TypeTriggeringInit" ||
      String.eqb name "Sync.Startup.DeferredInitTrigger"
  | _ => false
  end.

(** The five checks at the head of [TryStart], all passed. *)
Definition prechecks_pass (env : Env) (s : State) : bool :=
  negb (IsManaged env) && negb (IsStartSuppressed env) &&
  negb (String.eqb (GetEffectiveUsername env) "") &&
  token_service_ s &&
  RefreshTokenIsAvailable env (GetAccountIdToUse env).

(** A call sequence that stays inside one lifetime: no [Reset], and the
    clock never reads the null time. *)
Definition within_lifetime (calls : list (Env * Call)) : Prop :=
  Forall (fun ec => is_null (Now (fst ec)) = false /\ is_reset (snd ec) = false)
         calls.

(** How one call may move the two timestamps: each either stays, or goes
    from null to the clock's reading; the closure runs exactly when
    [start_backend_time_] is stamped. *)
Definition stamps (env : Env) (s s' : State) : Prop :=
  (start_up_time_ s' = start_up_time_ s \/
   (is_null (start_up_time_ s) = true /\ start_up_time_ s' = Now env)) /\
  ((start_backend_time_ s' = start_backend_time_ s /\
    backend_runs s' = backend_runs s) \/
   (is_null (start_backend_time_ s) = true /\
    start_backend_time_ s' = Now env /\
    backend_runs s' = S (backend_runs s))).

(** *** Concrete collaborators *)

Definition signed_in (setup_completed deferred : bool) (now : Time) : Env :=
  mkEnv false false setup_completed "user@example.com" "user@example.com"
        (fun _ => true) deferred now (fun t => t) 32.

(** Setup completed, deferred startup on: a first [TryStart], a data type
    asking for sync three seconds later, and the fallback task after ten. *)
Definition flare_scenario : list (Env * Call) :=
  [ (signed_in true true 5000000, CallTryStart);
    (signed_in true true 8000000, CallOnDataTypeRequestsSyncStartup 42);
    (signed_in true true 15000000, RunPostedTask 0) ].

Definition managed_env : Env :=
  mkEnv true false true "user@example.com" "user@example.com"
        (fun _ => true) true 5000 (fun t => t) 32.

End StartupController.

(** ** Further vocabulary *)
Module Coverage.

Import GenericChangeProcessor.

Section ProcessorVocabulary.

Context {TS : TreeStore}.

(** The kind the add branch gives to each failed creation result. *)
Definition creation_failure_kind (r : InitUniqueByCreationResult) : ErrorKind :=
  match r with
  | INIT_FAILED_EMPTY_TAG => EmptyTag
  | INIT_FAILED_ENTRY_ALREADY_EXISTS => EntryAlreadyExists
  | INIT_FAILED_COULD_NOT_CREATE_ENTRY => CouldNotCreate
  | INIT_FAILED_SET_PREDECESSOR => SetPredecessorFailed
  | INIT_SUCCESS => CreateUnknown
  end.

(** The kind the update branch gives to the lookup failures it names;
    [None] for the results it leaves to the encryption diagnostic. *)
Definition update_failure_kind (r : InitByLookupResult) : option ErrorKind :=
  match r with
  | INIT_FAILED_PRECONDITION => Some UpdateEmptyTag
  | INIT_FAILED_ENTRY_NOT_GOOD => Some UpdateBadEntry
  | INIT_FAILED_ENTRY_IS_DEL => Some UpdateDeletedEntry
  | _ => None
  end.

(** The members the outbound side has no business with. *)
Definition same_inbound_side (st st' : State) : Prop :=
  running st' = running st /\
  syncer_changes_ st' = syncer_changes_ st /\
  local_service_ st' = local_service_ st /\
  delivered st' = delivered st.

(** What the handler hears for an outcome. *)
Definition reported (o : Outcome) : list string :=
  match o with
  | Returned (Some e) => [error_message e]
  | _ => []
  end.

End ProcessorVocabulary.

Import StartupController.

Definition is_posted_task (e : Effect) : bool :=
  match e with PostDelayedTask _ _ => true | _ => false end.

(** How many fallback tasks have been posted. *)
Definition posted_tasks (s : StartupController.State) : nat :=
  List.length (filter is_posted_task (effects s)).



(** A started backend has a start-up time. *)
Definition consistent (s : StartupController.State) : Prop :=
  is_null (start_backend_time_ s) = false ->
  is_null (start_up_time_ s) = false.

Definition clock_runs (calls : list (Env * Call)) : Prop :=
  Forall (fun ec => is_null (Now (fst ec)) = false) calls.

Definition no_reset (calls : list (Env * Call)) : Prop :=
  Forall (fun ec => is_reset (snd ec) = false) calls.

(** Between two states at most one fallback task was posted, and only by
    the call that gave [start_up_time_] its value. *)
Definition posts_at_most_one (s s' : StartupController.State) : Prop :=
  (start_up_time_ s' = start_up_time_ s /\ posted_tasks s' = posted_tasks s) \/
  (is_null (start_up_time_ s) = true /\
   is_null (start_up_time_ s') = false /\
   (posted_tasks s' <= S (posted_tasks s))%nat).

(** Something lets [TryStart] go on to the backend once a start request is
    in: setup is completed, or in progress, or auto-start is on. *)
Definition may_start (env : Env) (s : StartupController.State) : bool :=
  HasSyncSetupCompleted env || setup_in_progress_ s || auto_start_enabled_ s.

Definition token_sample : Effect :=
  UMA_HISTOGRAM_BOOLEAN "Sync.RefreshTokenAvailable" true.

(** A flare-free sequence with a [Reset] in the middle. *)
Definition restart_scenario : list (Env * Call) :=
  [ (signed_in true true 5000000, CallTryStart);
    (signed_in true true 6000000, CallReset);
    (signed_in true true 7000000, CallTryStart) ].

End Coverage.

(** ** More stores to run the processor on *)
Module CoverageScenario.

Import GenericChangeProcessor FakeStore.

(** The root of the one datatype with a single child and a chain that
    ends properly. *)
Definition tidy_share : Share :=
  mkShare
    [ mkEntry 1 Scenario.prefs EmptyString (root_tag Scenario.prefs)
        EmptyString (Scenario.plain EmptyString) false 7 0;
      mkEntry 7 Scenario.prefs "k" EmptyString "seven"
        (Scenario.plain "s7_now") false 0 0 ]
    [] [] true.

Definition tidy_processor : State :=
  mkState true [] None tidy_share [] [] [].

Definition add_new : SyncChange :=
  mkSyncChange ACTION_ADD
    (LocalData "new" "hello" (Scenario.plain "x")).

Definition update_missing : SyncChange :=
  mkSyncChange ACTION_UPDATE
    (LocalData "nowhere" "hello" (Scenario.plain "x")).

(** A store in which every entry is found but cannot be decrypted, while
    the specifics of the entry itself carry no encrypted marker: the case
    of an entry whose secret sits deeper inside its payload. *)
Definition opaque_store : TreeStore := {|
  UserShare := unit;
  Node := unit;
  kInvalidId := 0;
  ModelTypeToString := type_name;
  ModelTypeToRootTag := root_tag;
  InitByIdLookup := fun _ _ => (INIT_FAILED_DECRYPT_IF_NECESSARY, tt);
  InitByTagLookup := fun _ _ => (INIT_FAILED_DECRYPT_IF_NECESSARY, tt);
  InitByClientTagLookup :=
    fun _ _ _ => (INIT_FAILED_DECRYPT_IF_NECESSARY, tt);
  InitUniqueByCreation :=
    fun _ _ _ _ => (INIT_FAILED_COULD_NOT_CREATE_ENTRY, tt, tt);
  GetId := fun _ _ => 0;
  GetEntitySpecifics := fun _ _ => mkSpecifics 0 None EmptyString;
  GetEntrySpecifics := fun _ _ => mkSpecifics 0 None EmptyString;
  GetFirstChildId := fun _ _ => 0;
  GetSuccessorId := fun _ _ => 0;
  HasChildren := fun _ _ => false;
  SetTitle := fun _ _ _ => tt;
  SetEntitySpecifics := fun _ _ _ => tt;
  Remove := fun _ _ => tt;
  GetEncryptedTypes := fun _ => [];
  CanDecrypt := fun _ _ => false;
  is_ready := fun _ => false
|}.

Definition opaque_processor : State (TS := opaque_store) :=
  mkState (TS := opaque_store) true [] None tt [] [] [].

End CoverageScenario.

(** * Properties of the startup controller *)
Section StartupControllerFacts.

Import StartupController.

Lemma backend_runs_emit e s :
  backend_runs (emit e s) =
  (backend_runs s + if is_backend_run e then 1 else 0)%nat.
Proof.
  unfold backend_runs, emit; simpl.
  rewrite filter_app, length_app; simpl.
  destruct (is_backend_run e); reflexivity.
Qed.

(** One call of [StartUp]: the first one stamps [start_up_time_], a later
    one keeps it; [start_backend_time_] is stamped in the very branch that
    runs the closure and nowhere else. *)
Lemma StartUp_timestamps opt env s :
  let s' := snd (StartUp opt env s) in
  start_up_time_ s' =
    (if is_null (start_up_time_ s) then Now env else start_up_time_ s) /\
  ((start_backend_time_ s' = start_backend_time_ s /\
    backend_runs s' = backend_runs s) \/
   (is_null (start_backend_time_ s) = true /\
    start_backend_time_ s' = Now env /\
    backend_runs s' = S (backend_runs s) /\
    effects s' = (effects s ++ [RunStartBackend])%list)).
Proof.
  unfold StartUp.
  destruct opt, (kSyncEnableDeferredStartup env),
    (is_null (start_up_time_ s)) eqn:Hup,
    (is_null (start_backend_time_ s)) eqn:Hbk;
    cbn [snd emit set_start_up_time set_start_backend_time start_up_time_
         start_backend_time_ effects weak_generation fallback_timeout_];
    rewrite ?Hup, ?Hbk;
    cbn [snd emit set_start_up_time set_start_backend_time start_up_time_
         start_backend_time_ effects weak_generation fallback_timeout_];
    (split; [reflexivity|]);
    try (left; split; [reflexivity|];
         rewrite ?backend_runs_emit; cbn; unfold backend_runs; cbn; lia);
    right; repeat split; try reflexivity;
    unfold backend_runs; cbn; rewrite filter_app, length_app; cbn; lia.
Qed.

Lemma stamps_from env s0 s s' :
  start_up_time_ s0 = start_up_time_ s ->
  start_backend_time_ s0 = start_backend_time_ s ->
  backend_runs s0 = backend_runs s ->
  stamps env s0 s' -> stamps env s s'.
Proof.
  unfold stamps; intros -> -> ->; trivial.
Qed.

Lemma stamps_same env s s' :
  start_up_time_ s' = start_up_time_ s ->
  start_backend_time_ s' = start_backend_time_ s ->
  backend_runs s' = backend_runs s ->
  stamps env s s'.
Proof.
  unfold stamps; intros; split; left; auto.
Qed.

Ltac same_stamps :=
  cbn [snd emit set_received_start_request start_up_time_ start_backend_time_];
  first [ reflexivity
        | unfold backend_runs;
          cbn [effects set_received_start_request emit];
          rewrite ?filter_app, ?length_app; cbn; lia ].

Ltac via lemma := eapply stamps_from; [| | | apply lemma]; same_stamps.

Lemma StartUp_stamps opt env s : stamps env s (snd (StartUp opt env s)).
Proof.
  destruct (StartUp_timestamps opt env s) as [Hup Hbk].
  split.
  - rewrite Hup. destruct (is_null (start_up_time_ s)); auto.
  - destruct Hbk as [?|(?&?&?&?)]; auto.
Qed.

Lemma TryStart_stamps env s : stamps env s (snd (TryStart env s)).
Proof.
  unfold TryStart.
  repeat match goal with
         | |- context [if ?b then _ else _] =>
             destruct b; try (apply stamps_same; same_stamps)
         end;
    via StartUp_stamps.
Qed.

Lemma OnFallbackStartupTimerExpired_stamps env s :
  stamps env s (OnFallbackStartupTimerExpired env s).
Proof.
  unfold OnFallbackStartupTimerExpired.
  destruct (negb (is_null (start_backend_time_ s)));
    [apply stamps_same; reflexivity|].
  via TryStart_stamps.
Qed.

Lemma OnDataTypeRequestsSyncStartup_stamps type env s :
  stamps env s (OnDataTypeRequestsSyncStartup type env s).
Proof.
  unfold OnDataTypeRequestsSyncStartup.
  destruct (negb (kSyncEnableDeferredStartup env));
    [apply stamps_same; reflexivity|].
  destruct (negb (is_null (start_backend_time_ s)));
    [apply stamps_same; reflexivity|].
  destruct (negb (is_null (start_up_time_ s))); via TryStart_stamps.
Qed.

Lemma step_stamps env c s :
  is_reset c = false -> stamps env s (step env c s).
Proof.
  destruct c; cbn [is_reset step]; intros Hc; try discriminate;
    try (apply stamps_same; reflexivity).
  - apply TryStart_stamps.
  - apply OnDataTypeRequestsSyncStartup_stamps.
  - destruct (Nat.eqb weak_ptr (weak_generation s)).
    + apply OnFallbackStartupTimerExpired_stamps.
    + apply stamps_same; reflexivity.
Qed.

(** Over a whole lifetime each timestamp moves at most once, from null to
    a non-null value, and the closure runs with the second one. *)
Lemma run_stamps calls : forall s,
  within_lifetime calls ->
  (start_up_time_ (run calls s) = start_up_time_ s \/
   (is_null (start_up_time_ s) = true /\
    is_null (start_up_time_ (run calls s)) = false)) /\
  ((start_backend_time_ (run calls s) = start_backend_time_ s /\
    backend_runs (run calls s) = backend_runs s) \/
   (is_null (start_backend_time_ s) = true /\
    is_null (start_backend_time_ (run calls s)) = false /\
    backend_runs (run calls s) = S (backend_runs s))).
Proof.
  induction calls as [|[env c] calls IH]; intros s Hlife; cbn [run].
  - split; left; auto.
  - inversion Hlife as [|? ? [Hnow Hc] Hrest]; subst; cbn [fst snd] in *.
    destruct (step_stamps env c s Hc) as [Hup Hbk].
    destruct (IH (step env c s) Hrest) as [IHup IHbk].
    split.
    + destruct Hup as [Hup|[Hnull Hup]].
      * rewrite Hup in IHup. exact IHup.
      * right. split; [exact Hnull|].
        destruct IHup as [IHup|[IHnull _]].
        -- rewrite IHup, Hup. exact Hnow.
        -- rewrite Hup, Hnow in IHnull. discriminate.
    + destruct Hbk as [[Hbk Hr]|(Hnull & Hbk & Hr)].
      * rewrite Hbk, Hr in IHbk. exact IHbk.
      * right. split; [exact Hnull|].
        destruct IHbk as [[IHbk IHr]|(IHnull & _)].
        -- rewrite IHbk, IHr, Hbk. auto.
        -- rewrite Hbk, Hnow in IHnull. discriminate.
Qed.

Lemma TryStart_frame env s :
  received_start_request_ (snd (TryStart env s)) = received_start_request_ s /\
  exists added,
    effects (snd (TryStart env s)) = (effects s ++ added)%list /\
    forallb (fun e => negb (is_deferral_telemetry e)) added = true.
Proof.
  unfold TryStart, StartUp.
  repeat match goal with
         | |- context [if ?b then _ else _] => destruct b
         | |- context [match ?o with STARTUP_IMMEDIATE => _ | _ => _ end] =>
             destruct o
         end;
    cbn [snd emit set_start_up_time set_start_backend_time effects
         received_start_request_];
    (split; [reflexivity|]);
    first [ exists []; split; [symmetry; apply app_nil_r | reflexivity]
          | eexists; split; [rewrite <- ?app_assoc; reflexivity | reflexivity] ].
Qed.

(** C8.  While sync is managed, [TryStart] answers false and leaves the
    controller exactly as it was: an unset [start_backend_time_] stays
    unset and the [start_backend_] closure does not run. *)
Theorem TryStart_managed_changes_nothing env s :
  IsManaged env = true ->
  TryStart env s = (false, s) /\
  (is_null (start_backend_time_ s) = true ->
   is_null (start_backend_time_ (snd (TryStart env s))) = true) /\
  backend_runs (snd (TryStart env s)) = backend_runs s.
Proof.
  intros Hmanaged.
  assert (H : TryStart env s = (false, s)).
  { unfold TryStart. rewrite Hmanaged. reflexivity. }
  rewrite H. cbn [snd]. auto.
Qed.

Lemma TryStart_managed_changes_nothing_witness :
  IsManaged managed_env = true /\
  TryStart managed_env (construct AUTO_START true) =
    (false, construct AUTO_START true).
Proof.
  split; [reflexivity|].
  apply (TryStart_managed_changes_nothing managed_env
           (construct AUTO_START true)).
  reflexivity.
Defined.

(** C5.  Once the five checks at its head have passed, [TryStart] records
    the token sample and then: with setup completed it takes
    [StartUp(STARTUP_BACKEND_DEFERRED)] when no start request was received
    and [StartUp(STARTUP_IMMEDIATE)] when one was; with setup not completed
    it takes [StartUp(STARTUP_IMMEDIATE)] exactly when setup is in progress
    or auto-start is enabled, and otherwise answers false with nothing but
    the sample recorded ([StartUp(STARTUP_IMMEDIATE)] always answers
    true, so the two cases cannot be confused). *)
Theorem TryStart_decision env s :
  prechecks_pass env s = true ->
  let s1 := emit (UMA_HISTOGRAM_BOOLEAN "Sync.RefreshTokenAvailable" true) s in
  (HasSyncSetupCompleted env = true ->
   received_start_request_ s = false ->
   TryStart env s = StartUp STARTUP_BACKEND_DEFERRED env s1) /\
  (HasSyncSetupCompleted env = true ->
   received_start_request_ s = true ->
   TryStart env s = StartUp STARTUP_IMMEDIATE env s1) /\
  (HasSyncSetupCompleted env = false ->
   setup_in_progress_ s || auto_start_enabled_ s = true ->
   TryStart env s = StartUp STARTUP_IMMEDIATE env s1) /\
  (HasSyncSetupCompleted env = false ->
   setup_in_progress_ s || auto_start_enabled_ s = false ->
   TryStart env s = (false, s1) /\
   start_up_time_ s1 = start_up_time_ s /\
   start_backend_time_ s1 = start_backend_time_ s /\
   backend_runs s1 = backend_runs s) /\
  (forall s', fst (StartUp STARTUP_IMMEDIATE env s') = true).
Proof.
  unfold prechecks_pass. intros Hpre.
  repeat (apply andb_prop in Hpre; destruct Hpre as [Hpre ?]).
  assert (Hhead : forall r,
    (if IsManaged env then (false, s)
     else if IsStartSuppressed env then (false, s)
     else if String.eqb (GetEffectiveUsername env) "" then (false, s)
     else if negb (token_service_ s) then (false, s)
     else if negb (RefreshTokenIsAvailable env (GetAccountIdToUse env))
     then (false, s) else r) = r).
  { intros r.
    destruct (IsManaged env); [discriminate|].
    destruct (IsStartSuppressed env); [discriminate|].
    destruct (String.eqb (GetEffectiveUsername env) ""); [discriminate|].
    destruct (token_service_ s); [|discriminate].
    destruct (RefreshTokenIsAvailable env (GetAccountIdToUse env));
      [reflexivity|discriminate]. }
  unfold TryStart. rewrite Hhead. cbv zeta.
  set (s1 := emit (UMA_HISTOGRAM_BOOLEAN "Sync.RefreshTokenAvailable" true) s).
  split; [|split; [|split; [|split]]].
  - intros -> Hreq.
    change (received_start_request_ s1) with (received_start_request_ s).
    rewrite Hreq. reflexivity.
  - intros -> Hreq.
    change (received_start_request_ s1) with (received_start_request_ s).
    rewrite Hreq. reflexivity.
  - intros -> Hgo.
    change (setup_in_progress_ s1) with (setup_in_progress_ s).
    change (auto_start_enabled_ s1) with (auto_start_enabled_ s).
    rewrite Hgo. reflexivity.
  - intros ->.
    change (setup_in_progress_ s1) with (setup_in_progress_ s).
    change (auto_start_enabled_ s1) with (auto_start_enabled_ s).
    intros ->. repeat (split; [reflexivity|]).
    subst s1. rewrite backend_runs_emit. cbn. lia.
  - intros s'. unfold StartUp. reflexivity.
Qed.

Lemma TryStart_decision_witness :
  prechecks_pass (signed_in true true 5000) (construct MANUAL_START true) = true /\
  TryStart (signed_in true true 5000) (construct MANUAL_START true) =
    StartUp STARTUP_BACKEND_DEFERRED (signed_in true true 5000)
      (emit (UMA_HISTOGRAM_BOOLEAN "Sync.RefreshTokenAvailable" true)
         (construct MANUAL_START true)).
Proof.
  split; [reflexivity|].
  apply (TryStart_decision (signed_in true true 5000)
           (construct MANUAL_START true)); reflexivity.
Defined.

(** C7.  Inside one lifetime, that is along calls that contain no [Reset]
    and read a non-null clock:
    - a set [start_up_time_] keeps its value, and an unset one is either
      still unset at the end or has been given a non-null value;
    - a set [start_backend_time_] keeps its value and the closure does not
      run again; an unset one is either still unset with no run of the
      closure, or set with exactly one run;
    - the [StartUp] call that finds [start_up_time_] unset is the one that
      assigns it (the clock's reading), every later one keeps it;
    - a [StartUp] call either leaves [start_backend_time_] and the closure
      alone, or stamps the unset [start_backend_time_] and runs the closure
      as its last act;
    - [Reset] clears both timestamps. *)
Theorem timestamps_once_per_lifetime calls s :
  within_lifetime calls ->
  let s' := run calls s in
  (is_null (start_up_time_ s) = false ->
   start_up_time_ s' = start_up_time_ s) /\
  (is_null (start_up_time_ s) = true ->
   start_up_time_ s' = start_up_time_ s \/
   is_null (start_up_time_ s') = false) /\
  (is_null (start_backend_time_ s) = false ->
   start_backend_time_ s' = start_backend_time_ s /\
   backend_runs s' = backend_runs s) /\
  (is_null (start_backend_time_ s) = true ->
   (start_backend_time_ s' = start_backend_time_ s /\
    backend_runs s' = backend_runs s) \/
   (is_null (start_backend_time_ s') = false /\
    backend_runs s' = S (backend_runs s))) /\
  (forall opt env,
     start_up_time_ (snd (StartUp opt env s')) =
       (if is_null (start_up_time_ s') then Now env else start_up_time_ s') /\
     ((start_backend_time_ (snd (StartUp opt env s')) = start_backend_time_ s' /\
       backend_runs (snd (StartUp opt env s')) = backend_runs s') \/
      (is_null (start_backend_time_ s') = true /\
       start_backend_time_ (snd (StartUp opt env s')) = Now env /\
       backend_runs (snd (StartUp opt env s')) = S (backend_runs s') /\
       effects (snd (StartUp opt env s')) =
         (effects s' ++ [RunStartBackend])%list))) /\
  is_null (start_up_time_ (Reset s')) = true /\
  is_null (start_backend_time_ (Reset s')) = true.
Proof.
  intros Hlife s'.
  destruct (run_stamps calls s Hlife) as [Hup Hbk]. fold s' in Hup, Hbk.
  split; [|split; [|split; [|split; [|split; [|split]]]]].
  - intros Hset. destruct Hup as [Hup|[Hnull _]]; [exact Hup|].
    rewrite Hnull in Hset. discriminate.
  - intros _. destruct Hup as [Hup|[_ Hup]]; auto.
  - intros Hset. destruct Hbk as [Hbk|(Hnull & _)]; [exact Hbk|].
    rewrite Hnull in Hset. discriminate.
  - intros _. destruct Hbk as [Hbk|(_ & Hbk)]; auto.
  - intros opt env. apply StartUp_timestamps.
  - reflexivity.
  - reflexivity.
Qed.

Lemma timestamps_once_per_lifetime_witness :
  within_lifetime flare_scenario /\
  (is_null (start_backend_time_ (construct MANUAL_START true)) = true ->
   (start_backend_time_ (run flare_scenario (construct MANUAL_START true)) =
      start_backend_time_ (construct MANUAL_START true) /\
    backend_runs (run flare_scenario (construct MANUAL_START true)) =
      backend_runs (construct MANUAL_START true)) \/
   (is_null
      (start_backend_time_ (run flare_scenario (construct MANUAL_START true))) =
      false /\
    backend_runs (run flare_scenario (construct MANUAL_START true)) =
      S (backend_runs (construct MANUAL_START true)))).
Proof.
  assert (Hlife : within_lifetime flare_scenario) by repeat constructor.
  split; [exact Hlife|].
  apply (timestamps_once_per_lifetime flare_scenario
           (construct MANUAL_START true) Hlife).
Defined.

(** C10.  With deferred startup enabled and the backend not yet started,
    [OnDataTypeRequestsSyncStartup] on a controller whose [start_up_time_]
    was never set is [TryStart] on the controller with
    [received_start_request_] raised; the flag is set afterwards, and no
    [TimeDeferred], [TypeTriggeringInit] or [DeferredInitTrigger] sample is
    among the effects the call adds. *)
Theorem flare_before_first_start type env s :
  kSyncEnableDeferredStartup env = true ->
  is_null (start_backend_time_ s) = true ->
  is_null (start_up_time_ s) = true ->
  let s' := OnDataTypeRequestsSyncStartup type env s in
  s' = snd (TryStart env (set_received_start_request true s)) /\
  received_start_request_ s' = true /\
  exists added,
    effects s' = (effects s ++ added)%list /\
    forallb (fun e => negb (is_deferral_telemetry e)) added = true.
Proof.
  intros Hswitch Hbk Hup s'.
  assert (Hs' : s' = snd (TryStart env (set_received_start_request true s))).
  { subst s'. unfold OnDataTypeRequestsSyncStartup.
    rewrite Hswitch, Hbk, Hup. reflexivity. }
  split; [exact Hs'|].
  destruct (TryStart_frame env (set_received_start_request true s))
    as [Hreq Hadded].
  rewrite <- Hs' in Hreq, Hadded.
  split; [exact Hreq|exact Hadded].
Qed.

Lemma flare_before_first_start_witness :
  kSyncEnableDeferredStartup (signed_in true true 5000000) = true /\
  is_null (start_backend_time_ (construct MANUAL_START true)) = true /\
  is_null (start_up_time_ (construct MANUAL_START true)) = true /\
  received_start_request_
    (OnDataTypeRequestsSyncStartup 42 (signed_in true true 5000000)
       (construct MANUAL_START true)) = true.
Proof.
  repeat (split; [reflexivity|]).
  apply (flare_before_first_start 42 (signed_in true true 5000000)
           (construct MANUAL_START true)); reflexivity.
Defined.

(** The two scenarios of the specification: a first [TryStart] with setup
    completed and deferred startup on only stamps [start_up_time_] and posts
    the fallback task; the data type asking three seconds later records the
    deferral, starts the backend, and makes the fallback task a no-op. *)
Example deferred_first_start :
  TryStart (signed_in true true 5000000) (construct MANUAL_START true) =
  (false,
   mkState false false false true 5000000 null_time 10000000 0
     [UMA_HISTOGRAM_BOOLEAN "Sync.RefreshTokenAvailable" true;
      PostDelayedTask 0 10000000]).
Proof. reflexivity. Qed.

Example flare_during_deferral :
  run flare_scenario (construct MANUAL_START true) =
  mkState true false false true 5000000 8000000 10000000 0
    [UMA_HISTOGRAM_BOOLEAN "Sync.RefreshTokenAvailable" true;
     PostDelayedTask 0 10000000;
     UMA_HISTOGRAM_TIMES "Sync.Startup.TimeDeferred" 3000000;
     UMA_HISTOGRAM_ENUMERATION "Sync.Startup.TypeTriggeringInit" 42 32;
     UMA_HISTOGRAM_ENUMERATION "Sync.Startup.DeferredInitTrigger" 0 2;
     UMA_HISTOGRAM_BOOLEAN "Sync.RefreshTokenAvailable" true;
     RunStartBackend].
Proof. reflexivity. Qed.

End StartupControllerFacts.

(** * Properties of the change processor *)
Section ProcessorFacts.

Import GenericChangeProcessor Pipeline.

Context {TS : TreeStore}.

Local Open Scope string_scope.

Lemma LogLookupFailure_spec r prefix type st :
  exists e,
    LogLookupFailure r prefix type st =
      (e, OnSingleDatatypeUnrecoverableError (error_message e) st) /\
    error_kind e = delete_failure_kind r /\
    error_type e = type.
Proof.
  destruct r; cbn [LogLookupFailure fail_with delete_failure_kind];
    eexists; (split; [reflexivity|split; reflexivity]).
Qed.

Ltac journal_grows :=
  first [ exists []; rewrite app_nil_r; reflexivity
        | eexists; rewrite <- ?app_assoc; reflexivity ].

(** Every way one turn of the loop can end, and what it has touched. *)
Lemma process_change_cases change st :
  match process_change change st with
  | (Continue, st1) =>
      error_log st1 = error_log st /\
      exists j, journal st1 = (journal st ++ j)%list
  | (Return e, st2) =>
      error_log st2 = (error_log st ++ [error_message e])%list /\
      (exists j, journal st2 = (journal st ++ j)%list) /\
      (change_type change <> ACTION_ADD ->
       share_handle_ st2 = share_handle_ st /\ journal st2 = journal st)
  | (CheckFailed, _) => True
  end.
Proof.
  unfold process_change, AttemptDelete, process_add, process_update,
    diagnose_encryption, LogLookupFailure, returning, fail_with,
    write_title_and_specifics.
  repeat match goal with
         | |- context [match ?x with _ => _ end] =>
             lazymatch x with
             | context [match _ with _ => _ end] => fail
             | _ => destruct x eqn:?
             end
         end;
    cbn [error_log journal share_handle_ mutate
         OnSingleDatatypeUnrecoverableError error_message fst snd];
    try exact I;
    repeat match goal with
           | |- _ /\ _ => split
           | |- _ = _ => reflexivity
           | |- exists _, _ => journal_grows
           | |- _ <> _ -> _ => intros Hadd; try contradiction
           end.
Qed.

Lemma process_change_Continue change st st1 :
  process_change change st = (Continue, st1) ->
  error_log st1 = error_log st /\
  exists j, journal st1 = (journal st ++ j)%list.
Proof.
  intros H. pose proof (process_change_cases change st) as Hc.
  rewrite H in Hc. exact Hc.
Qed.

Lemma process_change_Return change st e st2 :
  process_change change st = (Return e, st2) ->
  error_log st2 = (error_log st ++ [error_message e])%list /\
  (exists j, journal st2 = (journal st ++ j)%list) /\
  (change_type change <> ACTION_ADD ->
   share_handle_ st2 = share_handle_ st /\ journal st2 = journal st).
Proof.
  intros H. pose proof (process_change_cases change st) as Hc.
  rewrite H in Hc. exact Hc.
Qed.

Lemma ProcessSyncChanges_app pre : forall rest st st1,
  ProcessSyncChanges pre st = (Returned None, st1) ->
  ProcessSyncChanges (pre ++ rest)%list st = ProcessSyncChanges rest st1.
Proof.
  induction pre as [|c pre IH]; intros rest st st1 H; cbn [ProcessSyncChanges app] in *.
  - inversion H. reflexivity.
  - destruct (process_change c st) as [[| |] st0]; try discriminate.
    apply IH. exact H.
Qed.

Lemma ProcessSyncChanges_success l : forall st st1,
  ProcessSyncChanges l st = (Returned None, st1) ->
  error_log st1 = error_log st /\
  exists j, journal st1 = (journal st ++ j)%list.
Proof.
  induction l as [|c l IH]; intros st st1 H; cbn [ProcessSyncChanges] in H.
  - inversion H. split; [reflexivity|journal_grows].
  - destruct (process_change c st) as [[| |] st0] eqn:Hc; try discriminate.
    destruct (process_change_Continue _ _ _ Hc) as [Hlog [j Hj]].
    destruct (IH _ _ H) as [Hlog' [j' Hj']].
    split; [congruence|].
    exists (j ++ j')%list. rewrite Hj', Hj, app_assoc. reflexivity.
Qed.

(** C6.  A delete of local data with an empty tag makes the call return
    the [DeleteLocalEmptyTag] error, reported once, with store and journal
    untouched.  Otherwise the node is looked up, by client tag for local
    data and by id for remote data: a failed lookup makes the call return
    the error of the kind given by the mapping ([LogLookupFailure] follows
    the mapping for every result, unknown for the remaining one), again with
    store and journal untouched; a successful lookup is followed by
    [Remove] on that node and nothing else.  So [Remove] is called exactly
    when the lookup succeeds. *)
Theorem delete_outcomes change rest st :
  change_type change = ACTION_DELETE ->
  let data := sync_data change in
  let r := fst (delete_lookup change st) in
  let n := snd (delete_lookup change st) in
  (IsLocal data = true -> GetTag data = "" ->
   exists e st',
     ProcessSyncChanges (change :: rest) st = (Returned (Some e), st') /\
     error_kind e = DeleteLocalEmptyTag /\
     error_log st' = (error_log st ++ [error_message e])%list /\
     share_handle_ st' = share_handle_ st /\
     journal st' = journal st) /\
  (IsLocal data = false \/ GetTag data <> "" ->
   (r <> INIT_OK ->
    exists e st',
      ProcessSyncChanges (change :: rest) st = (Returned (Some e), st') /\
      error_kind e = delete_failure_kind r /\
      error_log st' = (error_log st ++ [error_message e])%list /\
      share_handle_ st' = share_handle_ st /\
      journal st' = journal st) /\
   (r = INIT_OK ->
    exists st',
      process_change change st = (Continue, st') /\
      error_log st' = error_log st /\
      share_handle_ st' = Remove (share_handle_ st) n /\
      journal st' = (journal st ++ [CallRemove n])%list)) /\
  (forall r' prefix type,
     error_kind (fst (LogLookupFailure r' prefix type st)) =
       delete_failure_kind r').
Proof.
  intros Hdel data r n.
  split; [|split].
  - intros Hlocal Htag.
    cbn [ProcessSyncChanges]. unfold process_change, AttemptDelete.
    rewrite Hdel. fold data. rewrite Hlocal, Htag.
    cbn [String.eqb fail_with].
    do 2 eexists. split; [reflexivity|]. repeat split.
  - intros Hlookup.
    assert (Hattempt :
      AttemptDelete change (GetDataType data)
        (ModelTypeToString (GetDataType data)) st =
      if negb (lookup_ok r) then
        let '(error, st1) :=
          LogLookupFailure r
            ("Failed to delete " ++ ModelTypeToString (GetDataType data) ++
             (if IsLocal data then " node. Local data, "
              else " node. Non-local data, "))
            (GetDataType data) st in
        (Some error, st1)
      else (None, mutate (Remove (share_handle_ st) n) (CallRemove n) st)).
    { unfold AttemptDelete, r, n, delete_lookup. fold data.
      destruct (IsLocal data) eqn:Hlocal.
      - destruct (String.eqb (GetTag data) "") eqn:Htag.
        + apply String.eqb_eq in Htag.
          destruct Hlookup as [?|Hne]; [discriminate|contradiction].
        + destruct (InitByClientTagLookup _ _ _) as [r0 n0]. reflexivity.
      - destruct (InitByIdLookup _ _) as [r0 n0]. reflexivity. }
    split.
    + intros Hfail.
      cbn [ProcessSyncChanges]. unfold process_change.
      rewrite Hdel. fold data. rewrite Hattempt.
      assert (Hneg : negb (lookup_ok r) = true)
        by (destruct r; [contradiction|reflexivity..]).
      rewrite Hneg.
      destruct (LogLookupFailure_spec r
                  ("Failed to delete " ++ ModelTypeToString (GetDataType data) ++
                   (if IsLocal data then " node. Local data, "
                    else " node. Non-local data, "))
                  (GetDataType data) st) as (e & He & Hkind & _).
      rewrite He.
      do 2 eexists. split; [reflexivity|]. repeat split. exact Hkind.
    + intros Hok.
      unfold process_change. rewrite Hdel. fold data. rewrite Hattempt.
      rewrite Hok. cbn [lookup_ok negb].
      eexists. split; [reflexivity|]. repeat split.
  - intros r' prefix type.
    destruct (LogLookupFailure_spec r' prefix type st) as (e & He & Hkind & _).
    rewrite He. exact Hkind.
Qed.

(** C4.  When the changes before [change] go through and [change] is the
    first to produce an error, the call returns that error whatever follows
    in the list, the error handler has received this one message and no
    other, and what the earlier changes did is still there: the journal of
    their mutator calls is a prefix of the final journal, and the store is
    the one they left (a failing delete, update or unset change does not
    touch it at all). *)
Theorem first_error_ends_the_batch pre change post st st1 e st2 :
  ProcessSyncChanges pre st = (Returned None, st1) ->
  process_change change st1 = (Return e, st2) ->
  ProcessSyncChanges (pre ++ change :: post)%list st =
    (Returned (Some e), st2) /\
  error_log st2 = (error_log st ++ [error_message e])%list /\
  (exists j1 j2,
     journal st1 = (journal st ++ j1)%list /\
     journal st2 = (journal st ++ j1 ++ j2)%list) /\
  (change_type change <> ACTION_ADD ->
   share_handle_ st2 = share_handle_ st1 /\ journal st2 = journal st1).
Proof.
  intros Hpre Hchange.
  destruct (ProcessSyncChanges_success _ _ _ Hpre) as [Hlog [j1 Hj1]].
  destruct (process_change_Return _ _ _ _ Hchange) as (Hlog2 & [j2 Hj2] & Hkeep).
  split; [|split; [|split]].
  - rewrite (ProcessSyncChanges_app _ _ _ _ Hpre).
    cbn [ProcessSyncChanges]. rewrite Hchange. reflexivity.
  - rewrite Hlog2, Hlog. reflexivity.
  - exists j1, j2. split; [exact Hj1|].
    rewrite Hj2, Hj1, app_assoc. reflexivity.
  - exact Hkeep.
Qed.

(** C3.  An update reached without an earlier error, whose lookup by
    client tag fails with a result that is none of precondition failed,
    entry not good and entry deleted, and whose entry carries encrypted
    specifics: the call returns an error whose kind is the one the table
    gives for [A] (the type is among the encrypted types) and [C] (the
    cryptographer can decrypt the entry); that error's message is the one
    message the handler receives, and nothing else changes. *)
Theorem update_encryption_diagnostic pre change post st st1 :
  ProcessSyncChanges pre st = (Returned None, st1) ->
  change_type change = ACTION_UPDATE ->
  let type := GetDataType (sync_data change) in
  let lookup :=
    InitByClientTagLookup (share_handle_ st1) type (GetTag (sync_data change)) in
  let specifics := GetEntrySpecifics (share_handle_ st1) (snd lookup) in
  let A := Has (GetEncryptedTypes (share_handle_ st1)) type in
  let C := CanDecrypt (share_handle_ st1) (encrypted_blob specifics) in
  fst lookup <> INIT_OK ->
  fst lookup <> INIT_FAILED_PRECONDITION ->
  fst lookup <> INIT_FAILED_ENTRY_NOT_GOOD ->
  fst lookup <> INIT_FAILED_ENTRY_IS_DEL ->
  has_encrypted specifics = true ->
  exists e,
    ProcessSyncChanges (pre ++ change :: post)%list st =
      (Returned (Some e),
       OnSingleDatatypeUnrecoverableError (error_message e) st1) /\
    error_kind e = encryption_diagnostic_kind A C /\
    error_type e = type /\
    error_log (OnSingleDatatypeUnrecoverableError (error_message e) st1) =
      (error_log st ++ [error_message e])%list.
Proof.
  intros Hpre Hupd type lookup specifics A C Hok Hpc Hng Hdel Henc.
  destruct (ProcessSyncChanges_success _ _ _ Hpre) as [Hlog _].
  rewrite (ProcessSyncChanges_app _ _ _ _ Hpre).
  cbn [ProcessSyncChanges]. unfold process_change. rewrite Hupd.
  unfold process_update. fold type. fold lookup.
  destruct lookup as [r n] eqn:Hlookup. cbn [fst snd] in *.
  destruct r; try contradiction. cbn [lookup_ok negb].
  unfold diagnose_encryption. fold specifics. rewrite Henc. cbn [negb].
  fold A. fold C.
  destruct A, C; cbn [negb andb returning fail_with fst snd
                      encryption_diagnostic_kind];
    eexists; (split; [reflexivity|]);
    cbn [error_kind error_type error_message error_log
         OnSingleDatatypeUnrecoverableError];
    rewrite Hlog; repeat split.
Qed.

Lemma set_syncer_changes_same st :
  set_syncer_changes (syncer_changes_ st ++ [])%list st = st.
Proof.
  destruct st. unfold set_syncer_changes. cbn. rewrite app_nil_r. reflexivity.
Qed.

Lemma apply_readable_step trans it rest st :
  readable trans it = true ->
  ApplyChangesFromSyncModel_loop trans (it :: rest) st =
  ApplyChangesFromSyncModel_loop trans rest (push_back (staged trans it) st).
Proof.
  unfold readable, staged. cbn [ApplyChangesFromSyncModel_loop].
  destruct (record_action it); intros Hit; try reflexivity;
    destruct (InitByIdLookup trans (record_id it)) as [r n];
    cbn [fst snd] in *; rewrite Hit; reflexivity.
Qed.

(** Records whose nodes can be read are staged one after the other, in
    their order, behind what the buffer already holds. *)
Lemma apply_readable_prefix trans pre : forall rest st,
  forallb (readable trans) pre = true ->
  ApplyChangesFromSyncModel_loop trans (pre ++ rest)%list st =
  ApplyChangesFromSyncModel_loop trans rest
    (set_syncer_changes (syncer_changes_ st ++ map (staged trans) pre)%list st).
Proof.
  induction pre as [|it pre IH]; intros rest st Hread.
  - cbn [app map]. rewrite set_syncer_changes_same. reflexivity.
  - cbn [forallb] in Hread. apply andb_prop in Hread as [Hit Hpre].
    change ((it :: pre) ++ rest)%list with (it :: (pre ++ rest))%list.
    rewrite (apply_readable_step _ _ _ _ Hit), (IH _ _ Hpre).
    unfold push_back.
    cbn [map set_syncer_changes syncer_changes_ running local_service_
         share_handle_ error_log delivered journal].
    rewrite <- app_assoc. reflexivity.
Qed.

(** C1, as the code has it.  When the records before [it] can all be
    read and the node of the add or update record [it] cannot: the handler
    receives the lookup message once, the call returns without looking at
    the records after [it], and the buffer holds what the records before
    [it] staged, in order. *)
Theorem failed_lookup_keeps_staged_prefix trans pre it post st :
  forallb (readable trans) pre = true ->
  readable trans it = false ->
  let st' := ApplyChangesFromSyncModel trans (pre ++ it :: post)%list st in
  st' =
    OnSingleDatatypeUnrecoverableError
      ("Failed to look up data for received change with id " ++
       Int64ToString (record_id it))
      (set_syncer_changes
         (syncer_changes_ st ++ map (staged trans) pre)%list st) /\
  syncer_changes_ st' = (syncer_changes_ st ++ map (staged trans) pre)%list /\
  error_log st' =
    (error_log st ++
     [("Failed to look up data for received change with id " ++
       Int64ToString (record_id it))%string])%list /\
  share_handle_ st' = share_handle_ st /\
  delivered st' = delivered st.
Proof.
  intros Hpre Hit st'.
  assert (Hst' : st' =
    OnSingleDatatypeUnrecoverableError
      ("Failed to look up data for received change with id " ++
       Int64ToString (record_id it))
      (set_syncer_changes
         (syncer_changes_ st ++ map (staged trans) pre)%list st)).
  { subst st'. unfold ApplyChangesFromSyncModel.
    rewrite (apply_readable_prefix _ _ _ _ Hpre).
    cbn [ApplyChangesFromSyncModel_loop].
    unfold readable in Hit.
    destruct (record_action it); try discriminate;
      destruct (InitByIdLookup trans (record_id it)) as [r n];
      cbn [fst] in Hit; rewrite Hit; reflexivity. }
  rewrite Hst'. repeat split.
Qed.

(** The commit path that reaches the service hands it the whole buffer
    and leaves the buffer empty, whatever the service answers. *)
Lemma commit_with_service_drains st service :
  running st = true ->
  local_service_ st = Some service ->
  syncer_changes_ (CommitChangesFromSyncModel st) = [] /\
  (syncer_changes_ st <> [] ->
   delivered (CommitChangesFromSyncModel st) =
     (delivered st ++ [syncer_changes_ st])%list).
Proof.
  intros Hrun Hsvc. unfold CommitChangesFromSyncModel.
  rewrite Hrun, Hsvc. cbn [negb].
  destruct (syncer_changes_ st) as [|c l] eqn:Hbuf.
  - split; [exact Hbuf|]. intros H. contradiction.
  - destruct (service (c :: l)); cbn; split; reflexivity.
Qed.

(** The commit path that finds the service gone reports it and returns
    with the buffer as it was. *)
Lemma commit_without_service_keeps st :
  running st = true ->
  local_service_ st = None ->
  syncer_changes_ (CommitChangesFromSyncModel st) = syncer_changes_ st /\
  delivered (CommitChangesFromSyncModel st) = delivered st.
Proof.
  intros Hrun Hsvc. unfold CommitChangesFromSyncModel.
  rewrite Hrun, Hsvc. cbn [negb].
  destruct (syncer_changes_ st) as [|c l] eqn:Hbuf.
  - rewrite Hbuf. split; reflexivity.
  - cbn. rewrite Hbuf. split; reflexivity.
Qed.

Lemma apply_keeps_members trans records : forall st,
  running (ApplyChangesFromSyncModel trans records st) = running st /\
  local_service_ (ApplyChangesFromSyncModel trans records st) =
    local_service_ st /\
  delivered (ApplyChangesFromSyncModel trans records st) = delivered st.
Proof.
  unfold ApplyChangesFromSyncModel.
  induction records as [|it records IH]; intros st.
  - repeat split.
  - assert (Hpush : forall c,
      running (ApplyChangesFromSyncModel_loop trans records (push_back c st)) =
        running st /\
      local_service_
        (ApplyChangesFromSyncModel_loop trans records (push_back c st)) =
        local_service_ st /\
      delivered
        (ApplyChangesFromSyncModel_loop trans records (push_back c st)) =
        delivered st).
    { intros c. destruct (IH (push_back c st)) as (H1 & H2 & H3).
      rewrite H1, H2, H3. repeat split. }
    cbn [ApplyChangesFromSyncModel_loop].
    destruct (record_action it); try apply Hpush;
      destruct (InitByIdLookup trans (record_id it)) as [r n];
      destruct (negb (lookup_ok r)); try apply Hpush; repeat split.
Qed.

(** C2, as the code has it.  For a batch applied and then committed while
    the pipeline is running: when the local service is alive the buffer is
    empty afterwards, whatever the service answers, and what was staged has
    been handed to the service in one piece; when the local service is gone
    nothing is delivered and the buffer is left as [apply] filled it, the
    handler hearing [Local service destroyed.] if anything was staged. *)
Theorem commit_drains_unless_service_gone trans records st :
  running st = true ->
  let applied := ApplyChangesFromSyncModel trans records st in
  let st' := CommitChangesFromSyncModel applied in
  (forall service,
     local_service_ st = Some service ->
     syncer_changes_ st' = [] /\
     (syncer_changes_ applied <> [] ->
      delivered st' = (delivered st ++ [syncer_changes_ applied])%list)) /\
  (local_service_ st = None ->
   syncer_changes_ st' = syncer_changes_ applied /\
   delivered st' = delivered st /\
   (syncer_changes_ applied <> [] ->
    error_log st' =
      (error_log applied ++ ["Local service destroyed."])%list)).
Proof.
  intros Hrun applied st'.
  destruct (apply_keeps_members trans records st) as (Hrun' & Hsvc' & Hdel').
  fold applied in Hrun', Hsvc', Hdel'. rewrite Hrun in Hrun'.
  split.
  - intros service Hsvc. rewrite Hsvc in Hsvc'.
    destruct (commit_with_service_drains applied service Hrun' Hsvc')
      as [Hempty Hdelivered].
    split; [exact Hempty|].
    intros Hne. subst st'. rewrite (Hdelivered Hne), Hdel'. reflexivity.
  - intros Hsvc. rewrite Hsvc in Hsvc'.
    destruct (commit_without_service_keeps applied Hrun' Hsvc')
      as [Hkept Hnone].
    split; [exact Hkept|]. split; [subst st'; rewrite Hnone; exact Hdel'|].
    intros Hne. subst st'. unfold CommitChangesFromSyncModel.
    rewrite Hrun', Hsvc'. cbn [negb].
    destruct (syncer_changes_ applied); [contradiction|reflexivity].
Qed.

(** C9.  The root is found, the children [nodes] follow one another from
    its first child, and the id after them, not the invalid one, cannot be
    looked up: with fuel for the children and one more step the call
    returns the fetch error for the type, and the list it was given has
    grown by the remote data of [nodes], in order. *)
Theorem child_lookup_failure_keeps_collected
  fuel type current_sync_data st root nodes bad :
  InitByTagLookup (share_handle_ st) (ModelTypeToRootTag type) =
    (INIT_OK, root) ->
  sibling_chain (share_handle_ st)
    (GetFirstChildId (share_handle_ st) root) nodes bad ->
  Z.eqb bad kInvalidId = false ->
  lookup_ok (fst (InitByIdLookup (share_handle_ st) bad)) = false ->
  (List.length nodes < fuel)%nat ->
  GetSyncDataForType fuel type current_sync_data st =
    Some
      (Some (mkError FetchChildFailed
               ("Failed to fetch child node for type " ++
                ModelTypeToString type ++ ".")
               type),
       (current_sync_data ++
        map (remote_data_of (share_handle_ st)) nodes)%list).
Proof.
  intros Hroot Hchain Hbad Hfail Hfuel.
  unfold GetSyncDataForType. rewrite Hroot. cbn [lookup_ok negb].
  revert fuel current_sync_data Hfuel Hchain.
  generalize (GetFirstChildId (share_handle_ st) root) as start.
  induction nodes as [|n nodes IH]; intros start fuel out Hfuel Hchain;
    cbn [sibling_chain] in Hchain.
  - subst start. destruct fuel as [|fuel]; [cbn in Hfuel; lia|].
    cbn [GetSyncDataForType_loop map]. rewrite Hbad.
    destruct (InitByIdLookup (share_handle_ st) bad) as [r b].
    cbn [fst] in Hfail. rewrite Hfail. cbn [negb].
    rewrite app_nil_r. reflexivity.
  - destruct Hchain as (Hstart & Hlookup & Hrest).
    destruct fuel as [|fuel]; [cbn in Hfuel; lia|].
    cbn [GetSyncDataForType_loop map]. rewrite Hstart, Hlookup.
    cbn [lookup_ok negb].
    rewrite (IH _ fuel _); [|cbn in Hfuel; lia|exact Hrest].
    unfold remote_data_of at 2. rewrite <- app_assoc. reflexivity.
Qed.

End ProcessorFacts.

(** * The processor on the small store *)
Section ProcessorRuns.

Import GenericChangeProcessor Pipeline.

Local Open Scope string_scope.

(** The inbound scenario of the specification: add and update of node 7
    and a delete of node 9 are staged in that order with the specifics node
    7 has now, delivered once, and the buffer is empty afterwards. *)
Example inbound_mixed_batch :
  let staged_list :=
    [mkSyncChange ACTION_ADD (RemoteData 7 (Scenario.plain "s7_now"));
     mkSyncChange ACTION_UPDATE (RemoteData 7 (Scenario.plain "s7_now"));
     mkSyncChange ACTION_DELETE (RemoteData 9 (Scenario.plain "sdel"))] in
  let st1 :=
    ApplyChangesFromSyncModel (TS := FakeStore.store) Scenario.share0
      [Scenario.add7;
       mkChangeRecord 7 RECORD_ACTION_UPDATE (Scenario.plain "s7'");
       Scenario.delete9]
      (Scenario.processor (Some Scenario.accepting)) in
  syncer_changes_ st1 = staged_list /\
  delivered (CommitChangesFromSyncModel st1) = [staged_list] /\
  syncer_changes_ (CommitChangesFromSyncModel st1) = [] /\
  error_log (CommitChangesFromSyncModel st1) = [].
Proof. cbv zeta. repeat split. Qed.

(** The update of the entry that cannot be decrypted, in full. *)
Example update_of_locked_entry :
  ProcessSyncChanges [Scenario.update_locked] (Scenario.processor None) =
  (Returned
     (Some (mkError EncrMissingKeyNigoriMatches
              "Failed to load encrypted entry, missing key and the nigori matches for Type3."
              Scenario.prefs)),
   mkState true [] None Scenario.share0
     ["Failed to load encrypted entry, missing key and the nigori matches for Type3."]
     [] []).
Proof. reflexivity. Qed.

Lemma first_error_ends_the_batch_witness :
  ProcessSyncChanges [Scenario.update_k; Scenario.delete_untagged; Scenario.delete_k]
    (Scenario.processor None) =
  (Returned (Some (mkError DeleteLocalEmptyTag
                     "Failed to delete Type3 node. Local data, empty tag."
                     Scenario.prefs)),
   snd (process_change Scenario.delete_untagged
          (snd (ProcessSyncChanges [Scenario.update_k]
                  (Scenario.processor None))))).
Proof.
  apply (first_error_ends_the_batch [Scenario.update_k]
           Scenario.delete_untagged [Scenario.delete_k]
           (Scenario.processor None)
           (snd (ProcessSyncChanges [Scenario.update_k]
                   (Scenario.processor None))));
    reflexivity.
Defined.

Lemma update_encryption_diagnostic_witness :
  exists e,
    ProcessSyncChanges
      [Scenario.update_k; Scenario.update_locked; Scenario.delete_k]
      (Scenario.processor None) =
      (Returned (Some e),
       OnSingleDatatypeUnrecoverableError (error_message e)
         (snd (ProcessSyncChanges [Scenario.update_k]
                 (Scenario.processor None)))) /\
    error_kind e = EncrMissingKeyNigoriMatches /\
    error_type e = Scenario.prefs /\
    error_log
      (OnSingleDatatypeUnrecoverableError (error_message e)
         (snd (ProcessSyncChanges [Scenario.update_k]
                 (Scenario.processor None)))) =
      ([] ++ [error_message e])%list.
Proof.
  apply (update_encryption_diagnostic [Scenario.update_k]
           Scenario.update_locked [Scenario.delete_k]
           (Scenario.processor None)
           (snd (ProcessSyncChanges [Scenario.update_k]
                   (Scenario.processor None))));
    first [reflexivity | discriminate].
Defined.

(** C1, as the claim has it, fails: the delete staged before the record
    whose node is missing is still in the buffer when the call returns. *)
Lemma failed_lookup_discards_nothing :
  let st' :=
    ApplyChangesFromSyncModel (TS := FakeStore.store) Scenario.share0
      [Scenario.delete9; Scenario.add99; Scenario.add7]
      (Scenario.processor (Some Scenario.accepting)) in
  lookup_ok (fst (InitByIdLookup (TreeStore := FakeStore.store) Scenario.share0 99)) = false /\
  error_log st' =
    ["Failed to look up data for received change with id 99"] /\
  syncer_changes_ st' =
    [mkSyncChange ACTION_DELETE (RemoteData 9 (Scenario.plain "sdel"))] /\
  syncer_changes_ st' <> [].
Proof.
  cbv zeta. repeat split. discriminate.
Qed.

Lemma failed_lookup_keeps_staged_prefix_witness :
  forallb (readable (TS := FakeStore.store) Scenario.share0) [Scenario.delete9; Scenario.add7] = true /\
  readable (TS := FakeStore.store) Scenario.share0 Scenario.add99 = false /\
  syncer_changes_
    (ApplyChangesFromSyncModel (TS := FakeStore.store) Scenario.share0
       ([Scenario.delete9; Scenario.add7] ++
        Scenario.add99 :: [Scenario.delete9])%list
       (Scenario.processor (Some Scenario.accepting))) =
    ([] ++ map (staged (TS := FakeStore.store) Scenario.share0)
             [Scenario.delete9; Scenario.add7])%list.
Proof.
  split; [reflexivity|]. split; [reflexivity|].
  apply (failed_lookup_keeps_staged_prefix (TS := FakeStore.store) Scenario.share0
           [Scenario.delete9; Scenario.add7] Scenario.add99
           [Scenario.delete9]
           (Scenario.processor (Some Scenario.accepting)));
    reflexivity.
Defined.

(** C2, as the claim has it, fails: the pipeline is running, the batch is
    one delete record and the local service is gone.  [commit] reports
    [Local service destroyed.] and returns with the staged delete still in
    the buffer; nothing was delivered. *)
Theorem commit_without_service_leaves_buffer :
  let st' :=
    CommitChangesFromSyncModel
      (ApplyChangesFromSyncModel Scenario.share0 [Scenario.delete9]
         (Scenario.processor None)) in
  running st' = true /\
  error_log st' = ["Local service destroyed."] /\
  delivered st' = [] /\
  syncer_changes_ st' =
    [mkSyncChange ACTION_DELETE (RemoteData 9 (Scenario.plain "sdel"))] /\
  syncer_changes_ st' <> [].
Proof.
  cbv zeta. repeat split. discriminate.
Qed.

Lemma commit_drains_unless_service_gone_witness :
  running (Scenario.processor (Some Scenario.accepting)) = true /\
  syncer_changes_
    (CommitChangesFromSyncModel
       (ApplyChangesFromSyncModel (TS := FakeStore.store) Scenario.share0
          [Scenario.add7; Scenario.delete9]
          (Scenario.processor (Some Scenario.accepting)))) = [].
Proof.
  split; [reflexivity|].
  apply (proj1 (commit_drains_unless_service_gone (TS := FakeStore.store)
                  Scenario.share0 [Scenario.add7; Scenario.delete9]
                  (Scenario.processor (Some Scenario.accepting)) eq_refl)
               Scenario.accepting eq_refl).
Defined.

Lemma child_lookup_failure_keeps_collected_witness :
  GetSyncDataForType 5 Scenario.prefs [] (Scenario.processor None) =
    Some
      (Some (mkError FetchChildFailed
               ("Failed to fetch child node for type " ++
                ModelTypeToString Scenario.prefs ++ ".")
               Scenario.prefs),
       ([] ++ map (remote_data_of (TS := FakeStore.store) Scenario.share0) [7])%list).
Proof.
  apply (child_lookup_failure_keeps_collected 5 Scenario.prefs []
           (Scenario.processor None) 1 [7] 8).
  - reflexivity.
  - cbn. repeat split.
  - reflexivity.
  - reflexivity.
  - cbn. lia.
Defined.

Lemma delete_outcomes_witness :
  exists e st',
    ProcessSyncChanges [Scenario.delete_untagged; Scenario.delete_k]
      (Scenario.processor None) = (Returned (Some e), st') /\
    error_kind e = DeleteLocalEmptyTag /\
    error_log st' = ([] ++ [error_message e])%list /\
    share_handle_ st' = Scenario.share0 /\
    journal st' = [].
Proof.
  apply (delete_outcomes Scenario.delete_untagged [Scenario.delete_k]
           (Scenario.processor None)); reflexivity.
Defined.

End ProcessorRuns.

(** * Further properties of the startup controller *)
Section StartupControllerCoverage.

Import StartupController Coverage.

Local Open Scope string_scope.

Ltac split_ifs :=
  repeat match goal with
         | |- context [if ?b then _ else _] =>
             lazymatch b with
             | context [if _ then _ else _] => fail
             | _ => destruct b eqn:?
             end
         end.

Ltac fields :=
  cbn [fst snd emit set_received_start_request set_start_up_time
       set_start_backend_time received_start_request_ setup_in_progress_
       auto_start_enabled_ token_service_ start_up_time_ start_backend_time_
       fallback_timeout_ weak_generation effects] in *.

(** X1.  A failed check at the head of [TryStart], whichever of the five
    it is, makes the call answer false and leave the controller exactly as
    it was; not even the token sample is recorded. *)
Theorem TryStart_failed_precheck env s :
  prechecks_pass env s = false ->
  TryStart env s = (false, s).
Proof.
  unfold prechecks_pass, TryStart.
  destruct (IsManaged env); [reflexivity|].
  destruct (IsStartSuppressed env); [reflexivity|].
  destruct (String.eqb (GetEffectiveUsername env) ""); [reflexivity|].
  destruct (token_service_ s); [|reflexivity].
  destruct (RefreshTokenIsAvailable env (GetAccountIdToUse env));
    [discriminate|reflexivity].
Qed.

Lemma TryStart_failed_precheck_witness :
  prechecks_pass
    (mkEnv false false true "" "" (fun _ => true) true 5000 (fun t => t) 32)
    (construct AUTO_START true) = false /\
  TryStart
    (mkEnv false false true "" "" (fun _ => true) true 5000 (fun t => t) 32)
    (construct AUTO_START true) = (false, construct AUTO_START true).
Proof.
  split; [reflexivity|].
  apply (TryStart_failed_precheck
           (mkEnv false false true "" "" (fun _ => true) true 5000
                  (fun t => t) 32)
           (construct AUTO_START true)).
  reflexivity.
Defined.



Lemma StartUp_consistent opt env s :
  is_null (Now env) = false ->
  consistent s -> consistent (snd (StartUp opt env s)).
Proof.
  unfold consistent, StartUp. intros Hnow Hs.
  split_ifs; fields; intros H; try congruence; auto.
Qed.

Lemma TryStart_consistent env s :
  is_null (Now env) = false ->
  consistent s -> consistent (snd (TryStart env s)).
Proof.
  intros Hnow Hs. unfold TryStart.
  destruct (IsManaged env); [exact Hs|].
  destruct (IsStartSuppressed env); [exact Hs|].
  destruct (String.eqb (GetEffectiveUsername env) ""); [exact Hs|].
  destruct (negb (token_service_ s)); [exact Hs|].
  destruct (negb (RefreshTokenIsAvailable env (GetAccountIdToUse env)));
    [exact Hs|].
  cbv zeta.
  repeat match goal with
         | |- consistent (snd (if ?b then _ else _)) => destruct b
         end;
    first [apply StartUp_consistent; [exact Hnow|exact Hs] | exact Hs].
Qed.

Lemma step_consistent env c s :
  is_null (Now env) = false ->
  consistent s -> consistent (step env c s).
Proof.
  intros Hnow Hs. destruct c; cbn [step]; try exact Hs.
  - unfold consistent, Reset. cbn. discriminate.
  - apply TryStart_consistent; assumption.
  - unfold OnDataTypeRequestsSyncStartup.
    destruct (negb (kSyncEnableDeferredStartup env)); [exact Hs|].
    destruct (negb (is_null (start_backend_time_ s))); [exact Hs|].
    destruct (negb (is_null (start_up_time_ s)));
      (apply TryStart_consistent; [exact Hnow|exact Hs]).
  - destruct (Nat.eqb weak_ptr (weak_generation s)); [|exact Hs].
    unfold OnFallbackStartupTimerExpired.
    destruct (negb (is_null (start_backend_time_ s))); [exact Hs|].
    apply TryStart_consistent; [exact Hnow|exact Hs].
Qed.

(** X3.  Whatever is called on a freshly built controller, [Reset]
    included, as long as the clock does not read the null time: when
    [start_backend_time_] is set, [start_up_time_] is set too, so the state
    string never says [Started] for a controller that was not started up. *)
Theorem started_has_start_up_time calls behavior token :
  clock_runs calls ->
  consistent (run calls (construct behavior token)).
Proof.
  intros Hclock.
  assert (H0 : consistent (construct behavior token)).
  { unfold consistent, construct. cbn. discriminate. }
  revert H0. generalize (construct behavior token) as s.
  induction calls as [|[env c] calls IH]; intros s Hs; cbn [run].
  - exact Hs.
  - inversion Hclock as [|? ? Hnow Hrest]; subst. cbn [fst] in Hnow.
    apply IH; [exact Hrest|]. apply step_consistent; assumption.
Qed.

Lemma started_has_start_up_time_witness :
  clock_runs restart_scenario /\
  consistent (run restart_scenario (construct MANUAL_START true)).
Proof.
  assert (H : clock_runs restart_scenario) by repeat constructor.
  split; [exact H|].
  apply (started_has_start_up_time restart_scenario MANUAL_START true H).
Defined.

(** X4.  Once [start_backend_time_] is set, a data type asking for
    startup, the fallback timer and any posted task all leave the
    controller exactly as it is: no second start, no further telemetry. *)
Theorem started_backend_ignores_triggers type env w s :
  is_null (start_backend_time_ s) = false ->
  OnDataTypeRequestsSyncStartup type env s = s /\
  OnFallbackStartupTimerExpired env s = s /\
  step env (RunPostedTask w) s = s.
Proof.
  intros Hset.
  assert (Htimer : OnFallbackStartupTimerExpired env s = s).
  { unfold OnFallbackStartupTimerExpired. rewrite Hset. reflexivity. }
  split; [|split; [exact Htimer|]].
  - unfold OnDataTypeRequestsSyncStartup. rewrite Hset.
    destruct (negb (kSyncEnableDeferredStartup env)); reflexivity.
  - cbn [step]. rewrite Htimer.
    destruct (Nat.eqb w (weak_generation s)); reflexivity.
Qed.

Lemma started_backend_ignores_triggers_witness :
  OnDataTypeRequestsSyncStartup 7 (signed_in true true 9000000)
    (mkState true false false true 5000000 8000000 10000000 0 []) =
  mkState true false false true 5000000 8000000 10000000 0 [].
Proof.
  exact (proj1 (started_backend_ignores_triggers 7
                  (signed_in true true 9000000) 0%nat
                  (mkState true false false true 5000000 8000000 10000000 0 [])
                  eq_refl)).
Defined.

(** X5.  The first [TryStart] that gets past the checks, with setup
    completed and no start request received: with deferred startup switched
    on it answers false, stamps [start_up_time_] and posts one fallback task
    carrying the current weak-pointer generation and [fallback_timeout_],
    without running the closure; with the switch off it answers true, stamps
    both times and runs the closure, and posts nothing. *)
Theorem first_start_defers_only_by_switch env s :
  prechecks_pass env s = true ->
  HasSyncSetupCompleted env = true ->
  received_start_request_ s = false ->
  is_null (start_up_time_ s) = true ->
  is_null (start_backend_time_ s) = true ->
  TryStart env s =
    if kSyncEnableDeferredStartup env then
      (false,
       emit (PostDelayedTask (weak_generation s) (fallback_timeout_ s))
         (set_start_up_time (Now env) (emit token_sample s)))
    else
      (true,
       emit RunStartBackend
         (set_start_backend_time (Now env)
            (set_start_up_time (Now env) (emit token_sample s)))).
Proof.
  unfold prechecks_pass. intros Hpre Hdone Hreq Hup Hbk.
  repeat (apply andb_prop in Hpre; destruct Hpre as [Hpre ?]).
  unfold TryStart, StartUp, token_sample.
  destruct (IsManaged env); [discriminate|].
  destruct (IsStartSuppressed env); [discriminate|].
  destruct (String.eqb (GetEffectiveUsername env) ""); [discriminate|].
  destruct (token_service_ s) eqn:Htok; [|discriminate].
  destruct (RefreshTokenIsAvailable env (GetAccountIdToUse env));
    [|discriminate].
  cbn [negb]. fields. rewrite Hdone, Hreq, Hup. cbn [negb]. fields.
  rewrite Hbk.
  destruct (kSyncEnableDeferredStartup env); reflexivity.
Qed.

Lemma first_start_defers_only_by_switch_witness :
  TryStart (signed_in true false 5000000) (construct MANUAL_START true) =
    if kSyncEnableDeferredStartup (signed_in true false 5000000) then
      (false,
       emit (PostDelayedTask
               (weak_generation (construct MANUAL_START true))
               (fallback_timeout_ (construct MANUAL_START true)))
         (set_start_up_time (Now (signed_in true false 5000000))
            (emit token_sample (construct MANUAL_START true))))
    else
      (true,
       emit RunStartBackend
         (set_start_backend_time (Now (signed_in true false 5000000))
            (set_start_up_time (Now (signed_in true false 5000000))
               (emit token_sample (construct MANUAL_START true))))).
Proof.
  apply (first_start_defers_only_by_switch (signed_in true false 5000000)
           (construct MANUAL_START true)); reflexivity.
Defined.

(** The difference of two times is taken in [int64]: far enough apart,
    it wraps. *)
Example time_sub_wraps :
  time_sub (2 ^ 63 - 1) (- (2 ^ 63 - 1)) = (-2)%Z /\
  time_sub 8000000 5000000 = 3000000%Z.
Proof. split; reflexivity. Qed.

Lemma TryStart_after_request env s :
  prechecks_pass env s = true ->
  received_start_request_ s = true ->
  may_start env s = true ->
  is_null (start_up_time_ s) = false ->
  is_null (start_backend_time_ s) = true ->
  TryStart env s =
    (true,
     emit RunStartBackend
       (set_start_backend_time (Now env) (emit token_sample s))).
Proof.
  unfold prechecks_pass, may_start. intros Hpre Hreq Hmay Hup Hbk.
  repeat (apply andb_prop in Hpre; destruct Hpre as [Hpre ?]).
  unfold TryStart, StartUp, token_sample.
  destruct (IsManaged env); [discriminate|].
  destruct (IsStartSuppressed env); [discriminate|].
  destruct (String.eqb (GetEffectiveUsername env) ""); [discriminate|].
  destruct (token_service_ s) eqn:Htok; [|discriminate].
  destruct (RefreshTokenIsAvailable env (GetAccountIdToUse env));
    [|discriminate].
  cbn [negb]. fields. rewrite Hreq. cbn [negb].
  destruct (HasSyncSetupCompleted env).
  - fields. rewrite Hup. fields. rewrite Hbk. reflexivity.
  - cbn [orb] in Hmay. rewrite Hmay. fields. rewrite Hup. fields.
    rewrite Hbk. reflexivity.
Qed.

(** X6.  A controller that was started up but whose backend was deferred
    leaves the deferral through either trigger, provided the checks of
    [TryStart] pass and setup is completed, in progress or auto-started.
    The time deferred is the [int64] difference of the clock's reading and
    [start_up_time_], which is their plain difference whenever that fits
    an [int64].
    The fallback timer records the time deferred and the trigger
    [TRIGGER_FALLBACK_TIMER]; a data type asking for startup, with deferred
    startup switched on, records the time deferred, the type and the trigger
    [TRIGGER_DATA_TYPE_REQUEST].  Either then raises
    [received_start_request_], records the token sample, stamps
    [start_backend_time_] with the clock and runs the closure once. *)
Theorem deferral_ends_with_backend_start type env s :
  prechecks_pass env s = true ->
  may_start env s = true ->
  is_null (start_up_time_ s) = false ->
  is_null (start_backend_time_ s) = true ->
  let started telemetry :=
    emit RunStartBackend
      (set_start_backend_time (Now env)
         (emit token_sample (set_received_start_request true telemetry))) in
  let time_deferred :=
    UMA_HISTOGRAM_TIMES "Sync.Startup.TimeDeferred"
      (time_sub (Now env) (start_up_time_ s)) in
  (- 2 ^ 63 <= Now env - start_up_time_ s < 2 ^ 63 ->
   time_sub (Now env) (start_up_time_ s) = Now env - start_up_time_ s)%Z /\
  OnFallbackStartupTimerExpired env s =
    started
      (emit (UMA_HISTOGRAM_ENUMERATION "Sync.Startup.DeferredInitTrigger" 1 2)
         (emit time_deferred s)) /\
  (kSyncEnableDeferredStartup env = true ->
   OnDataTypeRequestsSyncStartup type env s =
     started
       (emit (UMA_HISTOGRAM_ENUMERATION "Sync.Startup.DeferredInitTrigger" 0 2)
          (emit (UMA_HISTOGRAM_ENUMERATION "Sync.Startup.TypeTriggeringInit"
                   (ModelTypeToHistogramInt env type) (MODEL_TYPE_COUNT env))
             (emit time_deferred s)))).
Proof.
  intros Hpre Hmay Hup Hbk started time_deferred.
  split; [|split].
  - intros Hfits. unfold time_sub, wrap_int64.
    rewrite Z.mod_small; lia.
  - unfold OnFallbackStartupTimerExpired. rewrite Hbk. cbn [negb].
    rewrite TryStart_after_request; try assumption; reflexivity.
  - intros Hswitch. unfold OnDataTypeRequestsSyncStartup.
    rewrite Hswitch, Hbk, Hup. cbn [negb].
    rewrite TryStart_after_request; try assumption; reflexivity.
Qed.

Lemma deferral_ends_with_backend_start_witness :
  effects
    (OnFallbackStartupTimerExpired (signed_in true true 15000000)
       (snd (TryStart (signed_in true true 5000000)
               (construct MANUAL_START true)))) =
  [ token_sample;
    PostDelayedTask 0 10000000;
    UMA_HISTOGRAM_TIMES "Sync.Startup.TimeDeferred" 10000000;
    UMA_HISTOGRAM_ENUMERATION "Sync.Startup.DeferredInitTrigger" 1 2;
    token_sample;
    RunStartBackend ].
Proof.
  rewrite (proj1 (proj2 (deferral_ends_with_backend_start 0
                           (signed_in true true 15000000)
                           (snd (TryStart (signed_in true true 5000000)
                                   (construct MANUAL_START true)))
                           eq_refl eq_refl eq_refl eq_refl))).
  reflexivity.
Defined.

Ltac count_posted :=
  unfold posted_tasks; fields;
  rewrite ?filter_app, ?length_app; cbn; lia.

Lemma posts_from s0 s s' :
  start_up_time_ s0 = start_up_time_ s ->
  posted_tasks s0 = posted_tasks s ->
  posts_at_most_one s0 s' -> posts_at_most_one s s'.
Proof.
  unfold posts_at_most_one. intros -> ->. trivial.
Qed.

Lemma TryStart_posts env s :
  is_null (Now env) = false ->
  posts_at_most_one s (snd (TryStart env s)).
Proof.
  intros Hnow. unfold posts_at_most_one, TryStart, StartUp.
  split_ifs; fields;
    first [ left; split; [reflexivity|count_posted]
          | right; split; [assumption|split; [exact Hnow|count_posted]] ].
Qed.

Lemma step_posts env c s :
  is_null (Now env) = false ->
  is_reset c = false ->
  posts_at_most_one s (step env c s).
Proof.
  intros Hnow Hc.
  assert (Hsame : posts_at_most_one s s) by (left; split; reflexivity).
  destruct c; cbn [is_reset step] in *; try discriminate; try exact Hsame.
  - apply TryStart_posts. exact Hnow.
  - unfold OnDataTypeRequestsSyncStartup.
    destruct (negb (kSyncEnableDeferredStartup env)); [exact Hsame|].
    destruct (negb (is_null (start_backend_time_ s))); [exact Hsame|].
    destruct (negb (is_null (start_up_time_ s)));
      (eapply posts_from; [| |apply TryStart_posts; exact Hnow];
       [reflexivity|count_posted]).
  - destruct (Nat.eqb weak_ptr (weak_generation s)); [|exact Hsame].
    unfold OnFallbackStartupTimerExpired.
    destruct (negb (is_null (start_backend_time_ s))); [exact Hsame|].
    eapply posts_from; [| |apply TryStart_posts; exact Hnow];
      [reflexivity|count_posted].
Qed.

(** X7.  Inside one lifetime (no [Reset], a clock that does not read the
    null time) at most one fallback task is posted, and none at all once
    [start_up_time_] is set. *)
Theorem fallback_task_posted_once calls : forall s,
  within_lifetime calls ->
  (is_null (start_up_time_ s) = false ->
   posted_tasks (run calls s) = posted_tasks s) /\
  (posted_tasks (run calls s) <= S (posted_tasks s))%nat.
Proof.
  induction calls as [|[env c] calls IH]; intros s Hlife; cbn [run].
  - split; [reflexivity|lia].
  - inversion Hlife as [|? ? [Hnow Hc] Hrest]; subst; cbn [fst snd] in *.
    destruct (IH (step env c s) Hrest) as [IHset IHle].
    destruct (step_posts env c s Hnow Hc) as [[Hup Hp]|(Hnull & Hup & Hp)].
    + rewrite Hup, Hp in *. split; assumption.
    + split.
      * intros Hset. rewrite Hnull in Hset. discriminate.
      * rewrite (IHset Hup). exact Hp.
Qed.

Lemma fallback_task_posted_once_witness :
  within_lifetime flare_scenario /\
  (posted_tasks (run flare_scenario (construct MANUAL_START true)) <=
   S (posted_tasks (construct MANUAL_START true)))%nat.
Proof.
  assert (H : within_lifetime flare_scenario) by repeat constructor.
  split; [exact H|].
  apply (fallback_task_posted_once flare_scenario
           (construct MANUAL_START true) H).
Defined.







(** X9.  Along one lifetime of a freshly built controller the state
    string is [Started] exactly when the closure has run, and then it has
    run once; otherwise it has not run. *)
Theorem state_string_tracks_backend calls behavior token :
  within_lifetime calls ->
  let s := run calls (construct behavior token) in
  (GetBackendInitializationStateString s = "Started" ->
   backend_runs s = 1%nat) /\
  (GetBackendInitializationStateString s <> "Started" ->
   backend_runs s = 0%nat).
Proof.
  intros Hlife s.
  destruct (run_stamps calls (construct behavior token) Hlife) as [_ Hbk].
  fold s in Hbk. unfold GetBackendInitializationStateString.
  change (backend_runs (construct behavior token)) with 0%nat in Hbk.
  change (start_backend_time_ (construct behavior token)) with null_time in Hbk.
  destruct Hbk as [[Hsame Hruns]|(_ & Hset & Hruns)].
  - rewrite Hsame. cbn [is_null null_time Z.eqb negb].
    split; [|intros _; exact Hruns].
    destruct (negb (is_null (start_up_time_ s))); discriminate.
  - rewrite Hset. cbn [negb].
    split; [intros _; exact Hruns|]. intros H. contradiction H. reflexivity.
Qed.

Lemma state_string_tracks_backend_witness :
  within_lifetime flare_scenario /\
  (GetBackendInitializationStateString
     (run flare_scenario (construct MANUAL_START true)) = "Started" ->
   backend_runs (run flare_scenario (construct MANUAL_START true)) = 1%nat).
Proof.
  assert (H : within_lifetime flare_scenario) by repeat constructor.
  split; [exact H|].
  apply (state_string_tracks_backend flare_scenario MANUAL_START true H).
Defined.

Lemma TryStart_keeps_flags env s :
  auto_start_enabled_ (snd (TryStart env s)) = auto_start_enabled_ s /\
  token_service_ (snd (TryStart env s)) = token_service_ s /\
  setup_in_progress_ (snd (TryStart env s)) = setup_in_progress_ s /\
  received_start_request_ (snd (TryStart env s)) = received_start_request_ s /\
  fallback_timeout_ (snd (TryStart env s)) = fallback_timeout_ s /\
  weak_generation (snd (TryStart env s)) = weak_generation s.
Proof.
  unfold TryStart, StartUp. split_ifs; fields; repeat split.
Qed.

(** X10.  What the constructor fixed stays fixed: [auto_start_enabled_]
    and the token service are the same after any calls, [Reset] included.
    The weak-pointer generation never goes back.  And along calls without
    [Reset] a raised [received_start_request_] stays raised. *)
Theorem configuration_is_kept calls : forall s,
  auto_start_enabled_ (run calls s) = auto_start_enabled_ s /\
  token_service_ (run calls s) = token_service_ s /\
  (weak_generation s <= weak_generation (run calls s))%nat /\
  (no_reset calls ->
   received_start_request_ s = true ->
   received_start_request_ (run calls s) = true).
Proof.
  induction calls as [|[env c] calls IH]; intros s; cbn [run].
  - repeat split; auto.
  - destruct (IH (step env c s)) as (Hauto & Htok & Hgen & Hreq).
    assert (Hstep :
      auto_start_enabled_ (step env c s) = auto_start_enabled_ s /\
      token_service_ (step env c s) = token_service_ s /\
      (weak_generation s <= weak_generation (step env c s))%nat /\
      (is_reset c = false -> received_start_request_ s = true ->
       received_start_request_ (step env c s) = true)).
    { destruct c; cbn [step is_reset]; try (repeat split; auto; fail).
      - cbn. repeat split; auto; discriminate.
      - destruct (TryStart_keeps_flags env s) as (-> & -> & _ & -> & _ & ->).
        repeat split; auto.
      - unfold OnDataTypeRequestsSyncStartup.
        destruct (negb (kSyncEnableDeferredStartup env));
          [repeat split; auto|].
        destruct (negb (is_null (start_backend_time_ s)));
          [repeat split; auto|].
        destruct (negb (is_null (start_up_time_ s)));
          match goal with
          | |- context [TryStart env ?x] =>
              destruct (TryStart_keeps_flags env x) as (-> & -> & _ & -> & _ & ->)
          end; fields; repeat split; auto.
      - destruct (Nat.eqb weak_ptr (weak_generation s));
          [|repeat split; auto].
        unfold OnFallbackStartupTimerExpired.
        destruct (negb (is_null (start_backend_time_ s)));
          [repeat split; auto|].
        match goal with
        | |- context [TryStart env ?x] =>
            destruct (TryStart_keeps_flags env x) as (-> & -> & _ & -> & _ & ->)
        end; fields; repeat split; auto. }
    destruct Hstep as (Hauto' & Htok' & Hgen' & Hreq').
    split; [congruence|]. split; [congruence|]. split; [lia|].
    intros Hno Hraised.
    inversion Hno as [|? ? Hc Hrest]; subst. cbn [snd] in Hc.
    apply Hreq; [exact Hrest|]. apply Hreq'; assumption.
Qed.

Lemma configuration_is_kept_witness :
  no_reset flare_scenario /\
  auto_start_enabled_ (run restart_scenario (construct AUTO_START true)) =
    auto_start_enabled_ (construct AUTO_START true).
Proof.
  split; [repeat constructor|].
  apply (configuration_is_kept restart_scenario (construct AUTO_START true)).
Defined.

End StartupControllerCoverage.

(** * Further properties of the change processor *)
Section ProcessorCoverage.

Import GenericChangeProcessor Pipeline Coverage.

Context {TS : TreeStore}.

Local Open Scope string_scope.

(** X11.  When every record of a batch can be read, [apply] stages one
    change per record, in the order of the records, behind what the buffer
    held; it reports nothing and touches neither the store nor the
    service. *)
Theorem apply_stages_in_order trans records st :
  forallb (readable trans) records = true ->
  let st' := ApplyChangesFromSyncModel trans records st in
  syncer_changes_ st' =
    (syncer_changes_ st ++ map (staged trans) records)%list /\
  error_log st' = error_log st /\
  delivered st' = delivered st /\
  share_handle_ st' = share_handle_ st /\
  journal st' = journal st /\
  running st' = running st.
Proof.
  intros Hread st'.
  assert (Hst' : st' =
    set_syncer_changes
      (syncer_changes_ st ++ map (staged trans) records)%list st).
  { subst st'. unfold ApplyChangesFromSyncModel.
    pose proof (apply_readable_prefix trans records [] st Hread) as H.
    rewrite app_nil_r in H. exact H. }
  rewrite Hst'. repeat split.
Qed.

(** X12.  Whatever the records, [apply] only ever appends to the buffer,
    at most one change per record, and reports at most one message; it
    never touches the store, the journal, the running flag or the
    service. *)
Theorem apply_footprint trans records : forall st,
  let st' := ApplyChangesFromSyncModel trans records st in
  (exists added,
     syncer_changes_ st' = (syncer_changes_ st ++ added)%list /\
     (List.length added <= List.length records)%nat) /\
  (error_log st' = error_log st \/
   exists message, error_log st' = (error_log st ++ [message])%list) /\
  share_handle_ st' = share_handle_ st /\
  journal st' = journal st /\
  running st' = running st /\
  delivered st' = delivered st.
Proof.
  unfold ApplyChangesFromSyncModel.
  induction records as [|it records IH]; intros st;
    cbn [ApplyChangesFromSyncModel_loop].
  - split; [exists []; rewrite app_nil_r; split; [reflexivity|cbn; lia]|].
    repeat split. left. reflexivity.
  - assert (Hpush : forall c,
      let st' := ApplyChangesFromSyncModel_loop trans records (push_back c st) in
      (exists added,
         syncer_changes_ st' = (syncer_changes_ st ++ added)%list /\
         (List.length added <= S (List.length records))%nat) /\
      (error_log st' = error_log st \/
       exists message, error_log st' = (error_log st ++ [message])%list) /\
      share_handle_ st' = share_handle_ st /\
      journal st' = journal st /\
      running st' = running st /\
      delivered st' = delivered st).
    { intros c. destruct (IH (push_back c st)) as ([added [Hadd Hlen]] & Hrest).
      split; [|exact Hrest].
      exists (c :: added). split.
      - rewrite Hadd. unfold push_back. cbn [syncer_changes_ set_syncer_changes].
        rewrite <- app_assoc. reflexivity.
      - cbn [List.length]. lia. }
    cbn [List.length].
    destruct (record_action it); try apply Hpush;
      destruct (InitByIdLookup trans (record_id it)) as [r n];
      destruct (negb (lookup_ok r)); try apply Hpush;
      (split; [exists []; rewrite app_nil_r; split; [reflexivity|cbn; lia]|]);
      repeat split; right; eexists; reflexivity.
Qed.

(** X13.  [commit] does nothing at all when the pipeline is not running
    or the buffer is empty: no call of the service, no report, no change.
    In particular an empty batch applied and committed is a no-op. *)
Theorem commit_is_noop trans st :
  running st = false \/ syncer_changes_ st = [] ->
  CommitChangesFromSyncModel st = st /\
  CommitChangesFromSyncModel (ApplyChangesFromSyncModel trans [] st) = st.
Proof.
  intros H.
  assert (Hc : CommitChangesFromSyncModel st = st).
  { unfold CommitChangesFromSyncModel.
    destruct H as [Hrun|Hbuf].
    - rewrite Hrun. reflexivity.
    - rewrite Hbuf. destruct (negb (running st)); reflexivity. }
  split; [exact Hc|exact Hc].
Qed.

(** X14.  A batch of readable records applied to an empty buffer and then
    committed, with the pipeline running and the service alive: the
    service receives exactly one list, the staged changes in the order of
    the records; the buffer is empty afterwards; the handler hears the
    service's error if it returned one and nothing otherwise. *)
Theorem apply_then_commit_delivers trans records st service :
  running st = true ->
  local_service_ st = Some service ->
  syncer_changes_ st = [] ->
  records <> [] ->
  forallb (readable trans) records = true ->
  let batch := map (staged trans) records in
  let st' :=
    CommitChangesFromSyncModel (ApplyChangesFromSyncModel trans records st) in
  delivered st' = (delivered st ++ [batch])%list /\
  syncer_changes_ st' = [] /\
  error_log st' =
    (error_log st ++
     match service batch with
     | Some e => [error_message e]
     | None => []
     end)%list /\
  share_handle_ st' = share_handle_ st.
Proof.
  intros Hrun Hsvc Hbuf Hne Hread batch st'.
  assert (Happly : ApplyChangesFromSyncModel trans records st =
                   set_syncer_changes batch st).
  { unfold ApplyChangesFromSyncModel.
    pose proof (apply_readable_prefix trans records [] st Hread) as H.
    rewrite app_nil_r, Hbuf in H. exact H. }
  subst st'. rewrite Happly.
  unfold CommitChangesFromSyncModel.
  cbn [running set_syncer_changes syncer_changes_ local_service_].
  rewrite Hrun, Hsvc. cbn [negb].
  destruct batch as [|c l] eqn:Hbatch.
  - destruct records; [contradiction|discriminate].
  - destruct (service (c :: l)); cbn; rewrite ?app_nil_r; repeat split.
Qed.

(** X15.  When the root is found and the sibling chain under it ends in
    the invalid id, the traversal returns no error and has appended the
    remote data of every child, in sibling order; fuel for one step per
    child is enough. *)
Theorem traversal_collects_all_children
  fuel type current_sync_data st root nodes :
  InitByTagLookup (share_handle_ st) (ModelTypeToRootTag type) =
    (INIT_OK, root) ->
  sibling_chain (share_handle_ st)
    (GetFirstChildId (share_handle_ st) root) nodes kInvalidId ->
  (List.length nodes <= fuel)%nat ->
  GetSyncDataForType fuel type current_sync_data st =
    Some (None,
          (current_sync_data ++
           map (remote_data_of (share_handle_ st)) nodes)%list).
Proof.
  intros Hroot Hchain Hfuel.
  unfold GetSyncDataForType. rewrite Hroot. cbn [lookup_ok negb].
  revert fuel current_sync_data Hfuel Hchain.
  generalize (GetFirstChildId (share_handle_ st) root) as start.
  induction nodes as [|n nodes IH]; intros start fuel out Hfuel Hchain;
    cbn [sibling_chain] in Hchain.
  - subst start. destruct fuel; cbn [GetSyncDataForType_loop map];
      rewrite Z.eqb_refl, app_nil_r; reflexivity.
  - destruct Hchain as (Hstart & Hlookup & Hrest).
    destruct fuel as [|fuel]; [cbn in Hfuel; lia|].
    cbn [GetSyncDataForType_loop map]. rewrite Hstart, Hlookup.
    cbn [lookup_ok negb].
    rewrite (IH _ fuel _); [|cbn in Hfuel; lia|exact Hrest].
    unfold remote_data_of at 2. rewrite <- app_assoc. reflexivity.
Qed.

(** X16.  When the root of a type cannot be looked up, reading the type's
    data returns the top-level-node error for that type and leaves the list
    it was given as it is, and the question whether the type has user
    created nodes is answered with failure and no nodes. *)
Theorem missing_root_is_reported fuel type current_sync_data st :
  lookup_ok
    (fst (InitByTagLookup (share_handle_ st) (ModelTypeToRootTag type))) =
    false ->
  GetSyncDataForType fuel type current_sync_data st =
    Some
      (Some (mkError RootMissing
               ("Server did not create the top-level " ++
                ModelTypeToString type ++
                " node. We might be running against an out-of-date server.")
               type),
       current_sync_data) /\
  SyncModelHasUserCreatedNodes type st = (false, false).
Proof.
  intros Hroot. unfold GetSyncDataForType, SyncModelHasUserCreatedNodes.
  destruct (InitByTagLookup (share_handle_ st) (ModelTypeToRootTag type))
    as [r root].
  cbn [fst] in Hroot. rewrite Hroot. split; reflexivity.
Qed.

Ltac grows :=
  first [ exists []; rewrite app_nil_r; reflexivity
        | eexists; rewrite <- ?app_assoc; reflexivity ].

(** Every way one turn of the loop can end: what it leaves alone and how
    the error it returns is tagged. *)
Lemma process_change_footprint change st :
  match process_change change st with
  | (Continue, st') => same_inbound_side st st'
  | (Return e, st') =>
      same_inbound_side st st' /\
      error_type e = GetDataType (sync_data change)
  | (CheckFailed, st') => st' = st
  end.
Proof.
  unfold same_inbound_side, process_change, AttemptDelete, process_add,
    process_update, diagnose_encryption, LogLookupFailure, returning,
    fail_with, write_title_and_specifics.
  repeat match goal with
         | |- context [match ?x with _ => _ end] =>
             lazymatch x with
             | context [match _ with _ => _ end] => fail
             | _ => destruct x eqn:?
             end
         end;
    cbn [fst snd running syncer_changes_ local_service_ delivered mutate
         OnSingleDatatypeUnrecoverableError error_type];
    repeat split.
Qed.

(** X17.  The outbound side keeps away from the inbound side: whatever
    the changes and however the call ends, [ProcessSyncChanges] leaves the
    running flag, the staging buffer, the service pointer and the record of
    deliveries as they were. *)
Theorem outbound_leaves_inbound_alone list_of_changes : forall st,
  same_inbound_side st (snd (ProcessSyncChanges list_of_changes st)).
Proof.
  induction list_of_changes as [|c l IH]; intros st;
    cbn [ProcessSyncChanges].
  - repeat split.
  - pose proof (process_change_footprint c st) as Hc.
    destruct (process_change c st) as [[| |] st1]; cbn [snd] in *.
    + destruct (IH st1) as (H1 & H2 & H3 & H4).
      destruct Hc as (G1 & G2 & G3 & G4).
      repeat split; congruence.
    + exact (proj1 Hc).
    + subst st1. repeat split.
Qed.

(** X18.  The handler hears from [ProcessSyncChanges] exactly what the
    caller gets: one message, the returned error's, when an error is
    returned; nothing when every change went through, and nothing when the
    process dies in the check.  The journal of mutator calls only grows. *)
Theorem outbound_reports_what_it_returns list_of_changes : forall st,
  error_log (snd (ProcessSyncChanges list_of_changes st)) =
    (error_log st ++ reported (fst (ProcessSyncChanges list_of_changes st)))%list /\
  exists j,
    journal (snd (ProcessSyncChanges list_of_changes st)) =
      (journal st ++ j)%list.
Proof.
  induction list_of_changes as [|c l IH]; intros st;
    cbn [ProcessSyncChanges].
  - cbn. rewrite app_nil_r. split; [reflexivity|grows].
  - pose proof (process_change_cases c st) as Hcases.
    pose proof (process_change_footprint c st) as Hfoot.
    destruct (process_change c st) as [[| |] st1]; cbn [fst snd] in *.
    + destruct Hcases as [Hlog [j Hj]].
      destruct (IH st1) as [IHlog [j' Hj']].
      split; [rewrite IHlog, Hlog; reflexivity|].
      exists (j ++ j')%list. rewrite Hj', Hj, app_assoc. reflexivity.
    + destruct Hcases as (Hlog & Hj & _). split; [exact Hlog|exact Hj].
    + subst st1. cbn. rewrite app_nil_r. split; [reflexivity|grows].
Qed.

(** X19.  An error returned by [ProcessSyncChanges] comes from the
    change it stopped at: the list splits into the changes before it, which
    all went through, that change, which returned the error when its turn
    came, and the changes after it; the error carries that change's
    datatype. *)
Theorem returned_error_names_a_change list_of_changes : forall st e,
  fst (ProcessSyncChanges list_of_changes st) = Returned (Some e) ->
  exists before change after st1,
    list_of_changes = (before ++ change :: after)%list /\
    ProcessSyncChanges before st = (Returned None, st1) /\
    fst (process_change change st1) = Return e /\
    In change list_of_changes /\
    error_type e = GetDataType (sync_data change).
Proof.
  induction list_of_changes as [|c l IH]; intros st e;
    cbn [ProcessSyncChanges].
  - cbn. discriminate.
  - pose proof (process_change_footprint c st) as Hfoot.
    destruct (process_change c st) as [[| |] st0] eqn:Hc; cbn [fst snd] in *.
    + intros H.
      destruct (IH st0 e H)
        as (before & change & after & st1 & Hl & Hbefore & Hstop & Hin & Htype).
      exists (c :: before), change, after, st1.
      split; [rewrite Hl; reflexivity|].
      split; [cbn [ProcessSyncChanges]; rewrite Hc; exact Hbefore|].
      split; [exact Hstop|]. split; [right; exact Hin|exact Htype].
    + intros H. inversion H; subst.
      exists [], c, l, st.
      split; [reflexivity|]. split; [reflexivity|].
      split; [rewrite Hc; reflexivity|].
      split; [left; reflexivity|exact (proj2 Hfoot)].
    + discriminate.
Qed.

(** X20.  Processing a list in two parts: when the first part goes
    through, the whole gives what the second part gives from where the
    first one left; when the first part ends in an error or in the failed
    check, the whole ends the same way and the second part is never
    looked at. *)
Theorem outbound_in_two_parts first : forall second st,
  ProcessSyncChanges (first ++ second)%list st =
    match ProcessSyncChanges first st with
    | (Returned None, st1) => ProcessSyncChanges second st1
    | stopped => stopped
    end.
Proof.
  induction first as [|c first IH]; intros second st;
    cbn [ProcessSyncChanges app].
  - reflexivity.
  - destruct (process_change c st) as [[| |] st1]; [apply IH| |]; reflexivity.
Qed.

(** X21.  An add looks up the root of its type first.  Without the root
    it returns the root error and calls no mutator.  With the root it
    creates the node under it: a failed creation makes it return the error
    of the kind that belongs to the result, and neither title nor specifics
    are written; a successful one is followed by the title and then the
    specifics of the change being written to the new node, and nothing is
    reported. *)
Theorem add_outcomes change st :
  change_type change = ACTION_ADD ->
  let data := sync_data change in
  let type := GetDataType data in
  let root_lookup :=
    InitByTagLookup (share_handle_ st) (ModelTypeToRootTag type) in
  let creation :=
    InitUniqueByCreation (share_handle_ st) type (snd root_lookup)
      (GetTag data) in
  let node := snd (fst creation) in
  let created :=
    mutate (snd creation) (CallInitUniqueByCreation type (GetTag data)) st in
  (lookup_ok (fst root_lookup) = false ->
   exists e,
     process_change change st =
       (Return e, OnSingleDatatypeUnrecoverableError (error_message e) st) /\
     error_kind e = RootMissing) /\
  (lookup_ok (fst root_lookup) = true ->
   (fst (fst creation) <> INIT_SUCCESS ->
    exists e,
      process_change change st =
        (Return e,
         OnSingleDatatypeUnrecoverableError (error_message e) created) /\
      error_kind e = creation_failure_kind (fst (fst creation))) /\
   (fst (fst creation) = INIT_SUCCESS ->
    exists st',
      process_change change st = (Continue, st') /\
      error_log st' = error_log st /\
      share_handle_ st' =
        SetEntitySpecifics
          (SetTitle (snd creation) node (GetTitle data)) node
          (GetSpecifics data) /\
      journal st' =
        (journal st ++
         [CallInitUniqueByCreation type (GetTag data);
          CallSetTitle node (GetTitle data);
          CallSetEntitySpecifics node (GetSpecifics data)])%list)).
Proof.
  intros Hadd data type root_lookup creation node created.
  unfold process_change. rewrite Hadd. unfold process_add.
  fold data. fold type. fold root_lookup.
  destruct root_lookup as [root_result root_node] eqn:Hroot.
  cbn [fst snd] in *.
  split.
  - intros Hfail. rewrite Hfail. cbn [negb returning fail_with fst snd].
    eexists. split; reflexivity.
  - intros Hok. rewrite Hok. cbn [negb]. fold creation.
    subst node created.
    destruct creation as [[result sync_node] share] eqn:Hcreation.
    cbn [fst snd]. split.
    + intros Hfail.
      destruct result; try contradiction;
        cbn [creation_ok negb returning fail_with fst snd
             creation_failure_kind];
        eexists; split; reflexivity.
    + intros ->. cbn [creation_ok negb].
      eexists. split; [reflexivity|].
      unfold write_title_and_specifics, UTF8ToWide.
      cbn [error_log share_handle_ journal mutate].
      rewrite <- !app_assoc. repeat split.
Qed.

(** X22.  An update looks the node up by client tag.  Found, its title
    and then its specifics are overwritten with those of the change and
    nothing is reported.  For the three failures the branch names, an empty
    tag, a bad entry and a deleted entry, it returns the error of the
    matching kind and calls no mutator. *)
Theorem update_outcomes change st :
  change_type change = ACTION_UPDATE ->
  let data := sync_data change in
  let lookup :=
    InitByClientTagLookup (share_handle_ st) (GetDataType data) (GetTag data) in
  let node := snd lookup in
  (fst lookup = INIT_OK ->
   exists st',
     process_change change st = (Continue, st') /\
     error_log st' = error_log st /\
     share_handle_ st' =
       SetEntitySpecifics
         (SetTitle (share_handle_ st) node (GetTitle data)) node
         (GetSpecifics data) /\
     journal st' =
       (journal st ++
        [CallSetTitle node (GetTitle data);
         CallSetEntitySpecifics node (GetSpecifics data)])%list) /\
  (forall kind,
     update_failure_kind (fst lookup) = Some kind ->
     exists e,
       process_change change st =
         (Return e, OnSingleDatatypeUnrecoverableError (error_message e) st) /\
       error_kind e = kind /\
       error_type e = GetDataType data).
Proof.
  intros Hupd data lookup node.
  unfold process_change. rewrite Hupd. unfold process_update.
  fold data. fold lookup. subst node.
  destruct lookup as [result sync_node] eqn:Hlookup. cbn [fst snd].
  split.
  - intros ->. cbn [lookup_ok negb].
    eexists. split; [reflexivity|].
    unfold write_title_and_specifics, UTF8ToWide.
    cbn [error_log share_handle_ journal mutate].
    rewrite <- !app_assoc. repeat split.
  - intros kind Hkind.
    destruct result; cbn [update_failure_kind] in Hkind; try discriminate;
      inversion Hkind; subst;
      cbn [lookup_ok negb returning fail_with fst snd];
      eexists; repeat split.
Qed.

(** X23.  An update, reached without an earlier error, whose lookup fails
    for a reason the branch does not name and whose entry carries no
    encrypted marker does not return: the check on the marker fails, the
    handler has heard nothing, and what the earlier changes did is all
    there is. *)
Theorem update_without_marker_dies pre change post st st1 :
  ProcessSyncChanges pre st = (Returned None, st1) ->
  change_type change = ACTION_UPDATE ->
  let lookup :=
    InitByClientTagLookup (share_handle_ st1)
      (GetDataType (sync_data change)) (GetTag (sync_data change)) in
  fst lookup <> INIT_OK ->
  update_failure_kind (fst lookup) = None ->
  has_encrypted (GetEntrySpecifics (share_handle_ st1) (snd lookup)) = false ->
  ProcessSyncChanges (pre ++ change :: post)%list st = (Crashed, st1) /\
  error_log st1 = error_log st.
Proof.
  intros Hpre Hupd lookup Hfail Hother Hmarker.
  destruct (ProcessSyncChanges_success _ _ _ Hpre) as [Hlog _].
  split; [|exact Hlog].
  rewrite (ProcessSyncChanges_app _ _ _ _ Hpre).
  cbn [ProcessSyncChanges]. unfold process_change. rewrite Hupd.
  unfold process_update. fold lookup.
  destruct lookup as [result sync_node] eqn:Hlookup. cbn [fst snd] in *.
  destruct result; try contradiction; try discriminate.
  cbn [lookup_ok negb]. unfold diagnose_encryption.
  rewrite Hmarker. reflexivity.
Qed.

End ProcessorCoverage.

(** * The further properties on the small stores *)
Section ProcessorCoverageRuns.

Import GenericChangeProcessor Pipeline Coverage CoverageScenario.

Local Open Scope string_scope.

Lemma apply_stages_in_order_witness :
  forallb (readable (TS := FakeStore.store) Scenario.share0)
    [Scenario.delete9; Scenario.add7] = true /\
  syncer_changes_
    (ApplyChangesFromSyncModel (TS := FakeStore.store) Scenario.share0
       [Scenario.delete9; Scenario.add7]
       (Scenario.processor (Some Scenario.accepting))) =
    ([] ++ map (staged (TS := FakeStore.store) Scenario.share0)
             [Scenario.delete9; Scenario.add7])%list.
Proof.
  split; [reflexivity|].
  apply (apply_stages_in_order (TS := FakeStore.store) Scenario.share0
           [Scenario.delete9; Scenario.add7]
           (Scenario.processor (Some Scenario.accepting))).
  reflexivity.
Defined.

Lemma commit_is_noop_witness :
  CommitChangesFromSyncModel (Scenario.processor (Some Scenario.accepting)) =
  Scenario.processor (Some Scenario.accepting).
Proof.
  apply (commit_is_noop (TS := FakeStore.store) Scenario.share0
           (Scenario.processor (Some Scenario.accepting))).
  right. reflexivity.
Defined.

Lemma apply_then_commit_delivers_witness :
  delivered
    (CommitChangesFromSyncModel
       (ApplyChangesFromSyncModel (TS := FakeStore.store) Scenario.share0
          [Scenario.add7; Scenario.delete9]
          (Scenario.processor (Some Scenario.accepting)))) =
    ([] ++ [map (staged (TS := FakeStore.store) Scenario.share0)
              [Scenario.add7; Scenario.delete9]])%list.
Proof.
  apply (apply_then_commit_delivers (TS := FakeStore.store) Scenario.share0
           [Scenario.add7; Scenario.delete9]
           (Scenario.processor (Some Scenario.accepting))
           Scenario.accepting);
    first [reflexivity | discriminate].
Defined.

Lemma traversal_collects_all_children_witness :
  GetSyncDataForType 1 Scenario.prefs [] tidy_processor =
    Some (None,
          ([] ++ map (remote_data_of (TS := FakeStore.store) tidy_share) [7])%list).
Proof.
  apply (traversal_collects_all_children 1 Scenario.prefs []
           tidy_processor 1 [7]).
  - reflexivity.
  - cbn. repeat split.
  - cbn. lia.
Defined.

Lemma missing_root_is_reported_witness :
  SyncModelHasUserCreatedNodes 5 (Scenario.processor None) = (false, false).
Proof.
  apply (missing_root_is_reported 0 5 [] (Scenario.processor None)).
  reflexivity.
Defined.

Lemma returned_error_names_a_change_witness :
  exists before change after st1,
    [Scenario.update_k; Scenario.delete_untagged; Scenario.delete_k] =
      (before ++ change :: after)%list /\
    ProcessSyncChanges before (Scenario.processor None) =
      (Returned None, st1) /\
    fst (process_change change st1) =
      Return (mkError DeleteLocalEmptyTag
                "Failed to delete Type3 node. Local data, empty tag."
                Scenario.prefs) /\
    In change
      [Scenario.update_k; Scenario.delete_untagged; Scenario.delete_k] /\
    error_type
      (mkError DeleteLocalEmptyTag
         "Failed to delete Type3 node. Local data, empty tag."
         Scenario.prefs) =
    GetDataType (sync_data change).
Proof.
  apply (returned_error_names_a_change
           [Scenario.update_k; Scenario.delete_untagged; Scenario.delete_k]
           (Scenario.processor None)).
  reflexivity.
Defined.

Lemma add_outcomes_witness :
  exists st',
    process_change add_new (Scenario.processor None) = (Continue, st') /\
    error_log st' = [] /\
    share_handle_ st' =
      SetEntitySpecifics (TreeStore := FakeStore.store)
        (SetTitle (TreeStore := FakeStore.store)
           (snd (InitUniqueByCreation (TreeStore := FakeStore.store)
                   Scenario.share0 Scenario.prefs 1 "new"))
           9 "hello")
        9 (Scenario.plain "x") /\
    journal st' =
      ([] ++
       [CallInitUniqueByCreation Scenario.prefs "new";
        CallSetTitle (TS := FakeStore.store) 9 "hello";
        CallSetEntitySpecifics (TS := FakeStore.store) 9
          (Scenario.plain "x")])%list.
Proof.
  apply (add_outcomes add_new (Scenario.processor None)); reflexivity.
Defined.

Lemma update_outcomes_witness :
  exists e,
    process_change update_missing (Scenario.processor None) =
      (Return e,
       OnSingleDatatypeUnrecoverableError (error_message e)
         (Scenario.processor None)) /\
    error_kind e = UpdateBadEntry /\
    error_type e = Scenario.prefs.
Proof.
  apply (update_outcomes update_missing (Scenario.processor None));
    reflexivity.
Defined.

Lemma update_without_marker_dies_witness :
  ProcessSyncChanges (TS := opaque_store)
    ([] ++ Scenario.update_k :: [Scenario.delete_k])%list opaque_processor =
    (Crashed, opaque_processor) /\
  error_log opaque_processor = error_log opaque_processor.
Proof.
  apply (update_without_marker_dies (TS := opaque_store) []
           Scenario.update_k [Scenario.delete_k]
           opaque_processor opaque_processor);
    first [reflexivity | discriminate].
Defined.

End ProcessorCoverageRuns.
